(** * Goodseed: value codec, run store, catalog scanner and query server

    A shallow embedding of the Python package [goodseed]
    ([utils.py], [config.py], [storage.py], [run.py], [server.py]) and the
    properties its specification states about it.

    Conventions.
    - Python text is a [string]; only the ASCII range is modelled.
    - A Python exception is a value of [exn]; a call that may raise returns
      [res A], and [Raise e] out of a function means the exception left it.
    - A Python [dict] that is iterated is an association list in insertion
      order; an SQLite table with a primary key is a [gmap].
    - What the interpreter and its standard library supply for floats,
      datetimes and query strings is the interface [Host]; the laws the
      codec relies on are [HostLaws]. *)

From Stdlib Require Import ZArith Ascii String List.
From stdpp Require Import base tactics option list strings pretty gmap sorting.

Local Open Scope string_scope.
Local Open Scope Z_scope.

(** ** Exceptions and fallible results *)

Inductive exn : Type :=
  | TypeError (msg : string)
  | ValueError (msg : string)
  | RuntimeError (msg : string)
  | OverflowError (msg : string)
  | IntegrityError (msg : string)
  | AttributeError (msg : string)
  | OSError (msg : string)
  | DatabaseError (msg : string).

(** [str(e)] for an exception built from one message argument. *)
Definition exn_str (e : exn) : string :=
  match e with
  | TypeError m | ValueError m | RuntimeError m | OverflowError m
  | IntegrityError m | AttributeError m | OSError m | DatabaseError m => m
  end.

Inductive res (A : Type) : Type :=
  | Ok (a : A)
  | Raise (e : exn).
Arguments Ok {A} a.
Arguments Raise {A} e.

Global Instance res_ret : MRet res := @Ok.
Global Instance res_bind : MBind res := λ A B f m,
  match m with Ok a => f a | Raise e => Raise e end.
Global Instance res_fmap : FMap res := λ A B f m,
  match m with Ok a => Ok (f a) | Raise e => Raise e end.

Definition is_ok {A} (m : res A) : bool :=
  match m with Ok _ => true | Raise _ => false end.

(** ** Text helpers *)

Definition ascii_lower (c : ascii) : ascii :=
  let n := nat_of_ascii c in
  if (Nat.leb 65 n && Nat.leb n 90)%bool then ascii_of_nat (n + 32) else c.

(** [s.lower()] on ASCII text. *)
Fixpoint str_lower (s : string) : string :=
  match s with
  | EmptyString => EmptyString
  | String c r => String (ascii_lower c) (str_lower r)
  end.

(** The characters [str.strip()] and [int()] treat as blank. *)
Definition is_space (c : ascii) : bool :=
  let n := nat_of_ascii c in
  ((Nat.leb 9 n && Nat.leb n 13) || (Nat.leb 28 n && Nat.leb n 32))%bool.

Fixpoint lstrip_by (p : ascii → bool) (s : string) : string :=
  match s with
  | EmptyString => EmptyString
  | String c r => if p c then lstrip_by p r else s
  end.

Fixpoint rstrip_by (p : ascii → bool) (s : string) : string :=
  match s with
  | EmptyString => EmptyString
  | String c r =>
      match rstrip_by p r with
      | EmptyString => if p c then EmptyString else String c EmptyString
      | r' => String c r'
      end
  end.

Definition strip_by (p : ascii → bool) (s : string) : string :=
  rstrip_by p (lstrip_by p s).

Definition is_slash (c : ascii) : bool := bool_decide (c = "/"%char).

(** [utils.normalize_path]: [path.strip("/")]. *)
Definition normalize_path (path : string) : string := strip_by is_slash path.

Definition digit_val (c : ascii) : option Z :=
  let n := nat_of_ascii c in
  if (Nat.leb 48 n && Nat.leb n 57)%bool then Some (Z.of_nat n - 48) else None.

Definition is_digit (c : ascii) : bool := bool_decide (is_Some (digit_val c)).

(** Decimal digits with single underscores allowed between digits, as
    [int()] reads them. [seen] tells whether the previous character was a
    digit. *)
Fixpoint read_digits (s : string) (acc : Z) (seen : bool) : option Z :=
  match s with
  | EmptyString => if seen then Some acc else None
  | String c r =>
      match digit_val c with
      | Some d => read_digits r (10 * acc + d) true
      | None =>
          if (bool_decide (c = "_"%char) && seen)%bool
          then read_digits r acc false
          else None
      end
  end.

(** [str(n)] for an [int]. *)
Definition str_of_int (n : Z) : string := pretty n.

(** [sep.join(parts)]. *)
Fixpoint str_join (sep : string) (parts : list string) : string :=
  match parts with
  | [] => ""
  | [p] => p
  | p :: ps => p +:+ sep +:+ str_join sep ps
  end.

Fixpoint str_forall (p : ascii → bool) (s : string) : bool :=
  match s with
  | EmptyString => true
  | String c r => (p c && str_forall p r)%bool
  end.

Definition str_mem (c : ascii) (s : string) : bool :=
  negb (str_forall (λ x, negb (bool_decide (x = c))) s).

Fixpoint str_filter (p : ascii → bool) (s : string) : string :=
  match s with
  | EmptyString => EmptyString
  | String c r => if p c then String c (str_filter p r) else str_filter p r
  end.

(** The text before the first character satisfying [p], and from that
    character on. *)
Fixpoint str_break (p : ascii → bool) (s : string) : string * string :=
  match s with
  | EmptyString => (EmptyString, EmptyString)
  | String c r =>
      if p c then (EmptyString, s)
      else let '(a, b) := str_break p r in (String c a, b)
  end.

(** [s.split(c, 1)] when [c] occurs in [s]. *)
Definition split_once (c : ascii) (s : string) : option (string * string) :=
  match str_break (λ x, bool_decide (x = c)) s with
  | (a, String _ b) => Some (a, b)
  | (_, EmptyString) => None
  end.

(** [s.split(c)] *)
Fixpoint str_split (c : ascii) (s : string) : list string :=
  match s with
  | EmptyString => [EmptyString]
  | String x r =>
      if bool_decide (x = c) then EmptyString :: str_split c r
      else
        match str_split c r with
        | [] => [String x EmptyString]
        | w :: ws => String x w :: ws
        end
  end.

Definition hex_digit (n : nat) : ascii :=
  if Nat.ltb n 10 then ascii_of_nat (48 + n) else ascii_of_nat (87 + n).

(** The escape [repr] writes for one character inside the quotes [q]. *)
Definition backslash : ascii := "092"%char.

Definition escaped (c : ascii) : string := String backslash (String c EmptyString).

Definition repr_char (q c : ascii) : string :=
  let n := nat_of_ascii c in
  if bool_decide (c = backslash) then escaped backslash
  else if bool_decide (c = q) then escaped q
  else if bool_decide (c = "009"%char) then escaped "t"
  else if bool_decide (c = "010"%char) then escaped "n"
  else if bool_decide (c = "013"%char) then escaped "r"
  else if (Nat.ltb n 32 || Nat.leb 127 n)%bool
  then String backslash (String "x"%char (String (hex_digit (n / 16))
         (String (hex_digit (n mod 16)) EmptyString)))
  else String c EmptyString.

Fixpoint repr_chars (q : ascii) (s : string) : string :=
  match s with
  | EmptyString => EmptyString
  | String c r => repr_char q c +:+ repr_chars q r
  end.

(** [repr(s)] for text: single quotes, unless the text has a single quote
    and no double quote. *)
Definition str_repr (s : string) : string :=
  let q : ascii :=
    if (str_mem "'" s && negb (str_mem "034" s))%bool then "034"%char
    else "'"%char in
  String q (repr_chars q s) +:+ String q EmptyString.

(** [int(s)] for text [s]: blanks stripped, an optional sign, base 10. *)
Definition int_of_str (s : string) : res Z :=
  let bad := Raise (ValueError ("invalid literal for int() with base 10: " +:+ str_repr s)) in
  match strip_by is_space s with
  | EmptyString => bad
  | String c r =>
      if bool_decide (c = "-"%char) then
        match read_digits r 0 false with Some n => Ok (- n) | None => bad end
      else if bool_decide (c = "+"%char) then
        match read_digits r 0 false with Some n => Ok n | None => bad end
      else
        match read_digits (String c r) 0 false with
        | Some n => Ok n
        | None => bad
        end
  end.

(** ** What the interpreter supplies *)

Class Host : Type := {
  pyfloat : Type;
  pydatetime : Type;
  (** [a == b] on floats *)
  float_eqb : pyfloat → pyfloat → bool;
  (** [str(f)], which is [repr(f)] *)
  float_str : pyfloat → string;
  (** [float(s)] for text [s] *)
  float_of_str : string → res pyfloat;
  (** [float(n)] for an [int] *)
  float_of_int : Z → res pyfloat;
  (** [int(f)] *)
  float_to_int : pyfloat → res Z;
  (** [bool(f)] *)
  float_truthy : pyfloat → bool;
  (** [d.isoformat()] and [datetime.fromisoformat(s)] *)
  dt_isoformat : pydatetime → string;
  dt_fromisoformat : string → res pydatetime;
  (** [str(d)] and [repr(d)] *)
  dt_str : pydatetime → string;
  dt_repr : pydatetime → string;
}.

(** A float is a NaN when it differs from itself. *)
Definition float_is_nan `{Host} (f : pyfloat) : bool := negb (float_eqb f f).

(** The documented guarantees of the interpreter the codec relies on:
    [repr] of a float that is not a NaN reads back as that float, a NaN
    reads back as a NaN, and [fromisoformat] inverts [isoformat]. *)
Class HostLaws (H : Host) : Prop := {
  float_str_inv : ∀ f : pyfloat,
    float_is_nan f = false → float_of_str (float_str f) = Ok f;
  float_str_nan : ∀ f : pyfloat,
    float_is_nan f = true →
    ∃ g, float_of_str (float_str f) = Ok g ∧ float_is_nan g = true;
  dt_isoformat_inv : ∀ d : pydatetime,
    dt_fromisoformat (dt_isoformat d) = Ok d;
}.

(** ** Python values *)

Section values.
Context `{H : Host}.

(** The values that reach the codec and the flattener. [VOther ty text] is
    an instance of a class named [ty] that is none of the others and whose
    [str] and [repr] are [text]. *)
#[warnings="-register-all"]
Inductive pyval : Type :=
  | VNone
  | VBool (b : bool)
  | VInt (n : Z)
  | VFloat (f : pyfloat)
  | VStr (s : string)
  | VDatetime (d : pydatetime)
  | VDict (items : list (string * pyval))
  | VList (elems : list pyval)
  | VTuple (elems : list pyval)
  | VOther (ty : string) (text : string).

(** [type(v).__name__] *)
Definition type_name (v : pyval) : string :=
  match v with
  | VNone => "NoneType"
  | VBool _ => "bool"
  | VInt _ => "int"
  | VFloat _ => "float"
  | VStr _ => "str"
  | VDatetime _ => "datetime"
  | VDict _ => "dict"
  | VList _ => "list"
  | VTuple _ => "tuple"
  | VOther ty _ => ty
  end.

(** [repr(v)] *)
Fixpoint py_repr (v : pyval) : string :=
  match v with
  | VNone => "None"
  | VBool b => if b then "True" else "False"
  | VInt n => str_of_int n
  | VFloat f => float_str f
  | VStr s => str_repr s
  | VDatetime d => dt_repr d
  | VDict items =>
      "{" +:+ str_join ", "
        ((fix go (l : list (string * pyval)) : list string :=
            match l with
            | [] => []
            | (k, x) :: r => (str_repr k +:+ ": " +:+ py_repr x) :: go r
            end) items) +:+ "}"
  | VList elems =>
      "[" +:+ str_join ", "
        ((fix go (l : list pyval) : list string :=
            match l with [] => [] | x :: r => py_repr x :: go r end) elems)
      +:+ "]"
  | VTuple elems =>
      let parts :=
        (fix go (l : list pyval) : list string :=
           match l with [] => [] | x :: r => py_repr x :: go r end) elems in
      match parts with
      | [p] => "(" +:+ p +:+ ",)"
      | _ => "(" +:+ str_join ", " parts +:+ ")"
      end
  | VOther _ text => text
  end.

(** [str(v)] *)
Definition py_str (v : pyval) : string :=
  match v with
  | VStr s => s
  | VDatetime d => dt_str d
  | _ => py_repr v
  end.

(** [bool(v)] *)
Definition py_bool (v : pyval) : bool :=
  match v with
  | VNone => false
  | VBool b => b
  | VInt n => negb (n =? 0)
  | VFloat f => float_truthy f
  | VStr s => negb (bool_decide (s = ""))
  | VDatetime _ => true
  | VDict items => negb (bool_decide (length items = 0%nat))
  | VList elems | VTuple elems => negb (bool_decide (length elems = 0%nat))
  | VOther _ _ => true
  end.

(** [int(v)] *)
Definition py_int (v : pyval) : res Z :=
  match v with
  | VBool b => Ok (if b then 1 else 0)
  | VInt n => Ok n
  | VFloat f => float_to_int f
  | VStr s => int_of_str s
  | _ => Raise (TypeError
      ("int() argument must be a string, a bytes-like object or a real number, not '"
         +:+ type_name v +:+ "'"))
  end.

(** [float(v)] *)
Definition py_float (v : pyval) : res pyfloat :=
  match v with
  | VBool b => float_of_int (if b then 1 else 0)
  | VInt n => float_of_int n
  | VFloat f => Ok f
  | VStr s => float_of_str s
  | _ => Raise (TypeError
      ("float() argument must be a string or a real number, not '"
         +:+ type_name v +:+ "'"))
  end.

(** [datetime.fromisoformat(v)] *)
Definition py_fromisoformat (v : pyval) : res pydatetime :=
  match v with
  | VStr s => dt_fromisoformat s
  | _ => Raise (TypeError "fromisoformat: argument must be str")
  end.

(** ** utils.py: the value codec *)

(** [is_supported_type]: an instance of bool, int, float, str, datetime or
    NoneType. *)
Definition is_supported_type (value : pyval) : bool :=
  match value with
  | VNone | VBool _ | VInt _ | VFloat _ | VStr _ | VDatetime _ => true
  | _ => false
  end.

Definition cast_to_string (value : pyval) : string :=
  match value with
  | VDatetime d => dt_isoformat d
  | _ => py_str value
  end.

(** [serialize_value]: the (type_tag, serialized_string) pair. *)
Definition serialize_value (value : pyval) : string * string :=
  match value with
  | VNone => ("null", "")
  | VBool b => ("bool", if b then "true" else "false")
  | VInt n => ("int", str_of_int n)
  | VFloat f => ("float", float_str f)
  | VStr s => ("str", s)
  | VDatetime d => ("datetime", dt_isoformat d)
  | _ => ("str", py_str value)
  end.

(** [deserialize_value]: [raw_value] is whatever the column holds. *)
Definition deserialize_value (type_tag : string) (raw_value : pyval) : res pyval :=
  if (bool_decide (type_tag = "null")
      || match raw_value with VNone => true | _ => false end)%bool
  then Ok VNone
  else if bool_decide (type_tag = "bool") then
    match raw_value with
    | VStr s => Ok (VBool (bool_decide (str_lower s = "true")))
    | _ => Ok (VBool (py_bool raw_value))
    end
  else if bool_decide (type_tag = "int") then VInt <$> py_int raw_value
  else if bool_decide (type_tag = "float") then VFloat <$> py_float raw_value
  else if bool_decide (type_tag = "str") then Ok (VStr (py_str raw_value))
  else if bool_decide (type_tag = "datetime") then
    VDatetime <$> py_fromisoformat raw_value
  else Ok raw_value.

(** The kind tags [deserialize_value] knows. *)
Definition known_tags : list string :=
  ["null"; "bool"; "int"; "float"; "str"; "datetime"].

(** The six kinds of the tagged union. *)
Inductive kind : Type := KNull | KBool | KInt | KFloat | KStr | KDatetime.

Definition kind_of (v : pyval) : option kind :=
  match v with
  | VNone => Some KNull
  | VBool _ => Some KBool
  | VInt _ => Some KInt
  | VFloat _ => Some KFloat
  | VStr _ => Some KStr
  | VDatetime _ => Some KDatetime
  | _ => None
  end.

(** [a == b and type(a) is type(b)] on values of the six kinds: floats
    compare with the interpreter's [==], everything else by content. *)
Definition same_value (a b : pyval) : Prop :=
  match a, b with
  | VFloat f, VFloat g => float_eqb f g = true
  | VFloat _, _ | _, VFloat _ => False
  | _, _ => a = b
  end.

(** The round-trip law at one value: decoding what [serialize_value]
    gives returns a value that is equal to it and of its kind. *)
Definition decode_encoded (v : pyval) : res pyval :=
  deserialize_value (serialize_value v).1 (VStr (serialize_value v).2).

Definition round_trips (v : pyval) : Prop :=
  ∃ v', decode_encoded v = Ok v' ∧ same_value v' v ∧ kind_of v' = kind_of v.

(** ** Python dictionaries in insertion order *)

(** [d[k] = v]: an existing key keeps its position and takes the new
    value, a new key goes to the end. *)
Fixpoint dict_set {V} (k : string) (v : V) (d : list (string * V))
    : list (string * V) :=
  match d with
  | [] => [(k, v)]
  | (k', v') :: r =>
      if bool_decide (k' = k) then (k, v) :: r else (k', v') :: dict_set k v r
  end.

(** One step of [dict(items)] and of [d.update(items)]. *)
Definition upd {V} (d : list (string * V)) (kv : string * V) : list (string * V) :=
  dict_set kv.1 kv.2 d.

(** [dict(items)] *)
Definition dict_of_items {V} (items : list (string * V)) : list (string * V) :=
  fold_left upd items [].

(** Two item lists that build the same dict on top of any dict. *)
Definition items_equiv {V} (a b : list (string * V)) : Prop :=
  ∀ d, fold_left upd a d = fold_left upd b d.

(** [d.get(k)] *)
Fixpoint dict_get {V} (k : string) (d : list (string * V)) : option V :=
  match d with
  | [] => None
  | (k', v) :: r => if bool_decide (k' = k) then Some v else dict_get k r
  end.

(** ** utils.py: flattening *)

Definition unsupported_error (value : pyval) (at_key : string) : exn :=
  TypeError ("Unsupported type " +:+ type_name value +:+ " at " +:+ at_key).

(** What the loop body of [flatten_dict] does with a value that is neither
    a dict nor (at the outer level) a list or tuple. *)
Definition flatten_leaf (cast_unsupported : bool) (key : string) (value : pyval)
    : res (list (string * pyval)) :=
  if is_supported_type value then Ok [(key, value)]
  else if cast_unsupported then Ok [(key, VStr (cast_to_string value))]
  else Raise (unsupported_error value key).

(** [flatten_dict(data, parent_key, sep, cast_unsupported)] with [data]
    passed as a value; the result is the dict as its item list. The two
    local loops are the [for] loops of the source, and every recursive call
    returns the [dict] whose [.items()] extend [items]. *)
Fixpoint flatten_dict_value (cast_unsupported : bool) (sep : string)
    (data : pyval) (parent_key : string) {struct data}
    : res (list (string * pyval)) :=
  match data with
  | VDict entries =>
      items ←
        (fix loop (l : list (string * pyval)) : res (list (string * pyval)) :=
           match l with
           | [] => Ok []
           | (key, value) :: rest =>
               let new_key :=
                 if bool_decide (parent_key = "") then key
                 else parent_key +:+ sep +:+ key in
               here ←
                 match value return res (list (string * pyval)) with
                 | VDict _ =>
                     flatten_dict_value cast_unsupported sep value new_key
                 | VList elems | VTuple elems =>
                     (fix each (i : Z) (xs : list pyval)
                        : res (list (string * pyval)) :=
                        match xs with
                        | [] => Ok []
                        | item :: more =>
                            let item_key := new_key +:+ "/" +:+ str_of_int i in
                            one ←
                              match item return res (list (string * pyval)) with
                              | VDict _ =>
                                  flatten_dict_value cast_unsupported sep
                                    item item_key
                              | _ => flatten_leaf cast_unsupported item_key item
                              end;
                            others ← each (i + 1) more;
                            Ok (one ++ others)%list
                        end) 0 elems
                 | _ => flatten_leaf cast_unsupported new_key value
                 end;
               later ← loop rest;
               Ok (here ++ later)%list
           end) entries;
      Ok (dict_of_items items)
  | _ =>
      Raise (AttributeError
        ("'" +:+ type_name data +:+ "' object has no attribute 'items'"))
  end.

Definition flatten_dict (data : list (string * pyval)) (parent_key sep : string)
    (cast_unsupported : bool) : res (list (string * pyval)) :=
  flatten_dict_value cast_unsupported sep (VDict data) parent_key.

(** The loops of [flatten_dict] as functions of their own, for the proofs:
    one element of a list, the inner loop from index [i], one entry of the
    dict, the outer loop. *)
Definition flatten_item (cast_unsupported : bool) (sep item_key : string)
    (item : pyval) : res (list (string * pyval)) :=
  match item with
  | VDict _ => flatten_dict_value cast_unsupported sep item item_key
  | _ => flatten_leaf cast_unsupported item_key item
  end.

Fixpoint flatten_elems (cast_unsupported : bool) (sep new_key : string) (i : Z)
    (xs : list pyval) : res (list (string * pyval)) :=
  match xs with
  | [] => Ok []
  | item :: more =>
      one ← flatten_item cast_unsupported sep
               (new_key +:+ "/" +:+ str_of_int i) item;
      others ← flatten_elems cast_unsupported sep new_key (i + 1) more;
      Ok (one ++ others)%list
  end.

Definition flatten_value (cast_unsupported : bool) (sep new_key : string)
    (value : pyval) : res (list (string * pyval)) :=
  match value with
  | VDict _ => flatten_dict_value cast_unsupported sep value new_key
  | VList elems | VTuple elems =>
      flatten_elems cast_unsupported sep new_key 0 elems
  | _ => flatten_leaf cast_unsupported new_key value
  end.

Definition child_key (parent_key sep key : string) : string :=
  if bool_decide (parent_key = "") then key else parent_key +:+ sep +:+ key.

Fixpoint flatten_entries (cast_unsupported : bool) (sep parent_key : string)
    (l : list (string * pyval)) : res (list (string * pyval)) :=
  match l with
  | [] => Ok []
  | (key, value) :: rest =>
      here ← flatten_value cast_unsupported sep
                (child_key parent_key sep key) value;
      later ← flatten_entries cast_unsupported sep parent_key rest;
      Ok (here ++ later)%list
  end.

(** ** Flattening as the specification words it

    Every leaf of the tree with the list of keys and positions that lead
    to it, in the order of the tree; the flat mapping has the path joined
    by [/] as key. With [deep] a sequence inside a sequence is indexed like
    any other sequence; without it such a sequence counts as a value that
    is not supported. *)
Definition spec_leaf (cast_unsupported : bool) (path : list string) (v : pyval)
    : res (list (list string * pyval)) :=
  if is_supported_type v then Ok [(path, v)]
  else if cast_unsupported then Ok [(path, VStr (cast_to_string v))]
  else Raise (unsupported_error v (str_join "/" path)).

Fixpoint spec_leaves (deep cast_unsupported : bool) (path : list string)
    (in_sequence : bool) (v : pyval) {struct v}
    : res (list (list string * pyval)) :=
  match v with
  | VDict entries =>
      (fix go (l : list (string * pyval)) : res (list (list string * pyval)) :=
         match l with
         | [] => Ok []
         | (k, x) :: r =>
             a ← spec_leaves deep cast_unsupported (path ++ [k])%list false x;
             b ← go r;
             Ok (a ++ b)%list
         end) entries
  | VList elems | VTuple elems =>
      if (in_sequence && negb deep)%bool then spec_leaf cast_unsupported path v
      else
        (fix go (i : Z) (l : list pyval) : res (list (list string * pyval)) :=
           match l with
           | [] => Ok []
           | x :: r =>
               a ← spec_leaves deep cast_unsupported
                      (path ++ [str_of_int i])%list true x;
               b ← go (i + 1) r;
               Ok (a ++ b)%list
           end) 0 elems
  | _ => spec_leaf cast_unsupported path v
  end.

(** The two loops of [spec_leaves] as functions of their own. *)
Fixpoint spec_entries (deep cast_unsupported : bool) (path : list string)
    (l : list (string * pyval)) : res (list (list string * pyval)) :=
  match l with
  | [] => Ok []
  | (k, x) :: r =>
      a ← spec_leaves deep cast_unsupported (path ++ [k])%list false x;
      b ← spec_entries deep cast_unsupported path r;
      Ok (a ++ b)%list
  end.

Fixpoint spec_elems (deep cast_unsupported : bool) (path : list string) (i : Z)
    (l : list pyval) : res (list (list string * pyval)) :=
  match l with
  | [] => Ok []
  | x :: r =>
      a ← spec_leaves deep cast_unsupported (path ++ [str_of_int i])%list true x;
      b ← spec_elems deep cast_unsupported path (i + 1) r;
      Ok (a ++ b)%list
  end.

Definition join_path (leaf : list string * pyval) : string * pyval :=
  (str_join "/" leaf.1, leaf.2).

Definition spec_flatten (deep cast_unsupported : bool)
    (data : list (string * pyval)) : res (list (string * pyval)) :=
  leaves ← spec_leaves deep cast_unsupported [] false (VDict data);
  Ok (dict_of_items (join_path <$> leaves)).

(** Whether the tree holds a value the flattener does not represent: a
    value that is no dict, no list or tuple and of no supported kind, or a
    list or tuple that is itself an element of a list or tuple. *)
Fixpoint rejects (in_sequence : bool) (v : pyval) : bool :=
  match v with
  | VDict entries =>
      (fix go (l : list (string * pyval)) : bool :=
         match l with [] => false | (_, x) :: r => (rejects false x || go r)%bool end)
        entries
  | VList elems | VTuple elems =>
      if in_sequence then true
      else
        (fix go (l : list pyval) : bool :=
           match l with [] => false | x :: r => (rejects true x || go r)%bool end)
          elems
  | _ => negb (is_supported_type v)
  end.

(** The exception of the flattener for a value it does not represent. *)
Definition unsupported (e : exn) : Prop :=
  ∃ v key, is_supported_type v = false ∧ e = unsupported_error v key.

(** The items of the code against the leaves of the wording: the same
    exception, or item lists that build the same dict. *)
Definition agree (code : res (list (string * pyval)))
    (spec : res (list (list string * pyval))) : Prop :=
  match code, spec with
  | Ok items, Ok leaves => items_equiv items (join_path <$> leaves)
  | Raise e, Raise e' => e = e'
  | _, _ => False
  end.

(** A tree of maps and sequences whose leaves are of the supported
    kinds. *)
Fixpoint plain_tree (v : pyval) : bool :=
  match v with
  | VDict entries =>
      (fix go (l : list (string * pyval)) : bool :=
         match l with [] => true | (_, x) :: r => (plain_tree x && go r)%bool end)
        entries
  | VList elems | VTuple elems =>
      (fix go (l : list pyval) : bool :=
         match l with [] => true | x :: r => (plain_tree x && go r)%bool end)
        elems
  | _ => is_supported_type v
  end.

(** The items of a dict whose values are all of the supported kinds. *)
Definition all_supported (items : list (string * pyval)) : Prop :=
  Forall (λ kv, is_supported_type kv.2 = true) items.

End values.

(** ** storage.py: the run store *)

Section storage.
Context `{H : Host}.

(** The four tables of [_init_schema]. [metric_series] has [id INTEGER
    PRIMARY KEY AUTOINCREMENT] and [path UNIQUE]; it is kept as the map from
    path to id, and [series_seq] is the high-water mark SQLite keeps for
    AUTOINCREMENT. [metric_points] has [PRIMARY KEY (series_id, step)]. *)
Record db : Type := Db {
  run_meta : gmap string (option string);
  configs : gmap string (string * option string * string);
  metric_series : gmap string Z;
  series_seq : Z;
  metric_points : gmap (Z * Z) (pyfloat * Z);
}.

Definition empty_db : db := Db ∅ ∅ ∅ 0 ∅.

(** A [LocalStorage] object: the database file it is attached to, whether
    [self._conn] is set, and [self._series_cache]. *)
Record LocalStorage : Type := Storage {
  file : db;
  conn : bool;
  series_cache : gmap string Z;
}.

Definition set_file (d : db) (self : LocalStorage) : LocalStorage :=
  Storage d (conn self) (series_cache self).

(** A method of the object: a result or an exception, and the object
    afterwards. *)
Definition method (A : Type) : Type := LocalStorage → res A * LocalStorage.

Definition storage_closed : exn := RuntimeError "Storage is closed".

(** [LocalStorage(db_path)] on a file with content [d] (a new file has
    [empty_db]; [CREATE TABLE IF NOT EXISTS] leaves an existing one). *)
Definition LocalStorage_init (d : db) : LocalStorage := Storage d true ∅.

(** [with self._transaction() as conn: body]: commit when the body
    returns, roll the database back when it raises. The cache is an
    attribute of the object and is not rolled back. *)
Definition _transaction {A} (body : method A) : method A := λ self,
  if conn self then
    match body self with
    | (Ok a, self') => (Ok a, self')
    | (Raise e, self') => (Raise e, set_file (file self) self')
    end
  else (Raise storage_closed, self).

(** Binding a Python [int] to an INTEGER parameter. *)
Definition sqlite_int (n : Z) : res Z :=
  if ((- 2 ^ 63 <=? n) && (n <? 2 ^ 63))%bool then Ok n
  else Raise (OverflowError "Python int too large to convert to SQLite INTEGER").

Definition largest_id (t : gmap string Z) : Z :=
  map_fold (λ _ i acc, Z.max i acc) 0 t.

(** [_get_series_id]: cached id, else [INSERT OR IGNORE] then [SELECT id]. *)
Definition _get_series_id (path : string) : method Z := λ self,
  match series_cache self !! path with
  | Some sid => (Ok sid, self)
  | None =>
      let d := file self in
      match metric_series d !! path with
      | Some sid =>
          (Ok sid, Storage d (conn self) (<[path := sid]> (series_cache self)))
      | None =>
          let last := Z.max (series_seq d) (largest_id (metric_series d)) in
          if last <? 2 ^ 63 - 1 then
            let sid := last + 1 in
            let d' := Db (run_meta d) (configs d)
                         (<[path := sid]> (metric_series d)) sid
                         (metric_points d) in
            (Ok sid, Storage d' (conn self) (<[path := sid]> (series_cache self)))
          else (Raise (DatabaseError "database or disk is full"), self)
      end
  end.

(** [INSERT OR REPLACE INTO metric_points (series_id, step, y, ts)]:
    an [int] outside 64 bits fails to bind, and a NaN is stored as NULL,
    which [y REAL NOT NULL] refuses. *)
Definition insert_point (sid step : Z) (y : pyfloat) (ts : Z) (d : db) : res db :=
  step' ← sqlite_int step;
  ts' ← sqlite_int ts;
  if float_is_nan y
  then Raise (IntegrityError "NOT NULL constraint failed: metric_points.y")
  else Ok (Db (run_meta d) (configs d) (metric_series d) (series_seq d)
              (<[(sid, step') := (y, ts')]> (metric_points d))).

Definition set_meta (key value : string) : method () :=
  _transaction (λ self,
    let d := file self in
    (Ok (), set_file (Db (<[key := Some value]> (run_meta d)) (configs d)
                         (metric_series d) (series_seq d) (metric_points d))
                     self)).

Definition get_meta (key : string) (self : LocalStorage) : res (option string) :=
  if conn self then
    Ok (match run_meta (file self) !! key with
        | Some value => value
        | None => None
        end)
  else Raise storage_closed.

Fixpoint log_configs_loop (now : string) (data : list (string * (string * string)))
    (d : db) : db :=
  match data with
  | [] => d
  | (path, (type_tag, value)) :: rest =>
      log_configs_loop now rest
        (Db (run_meta d) (<[path := (type_tag, Some value, now)]> (configs d))
            (metric_series d) (series_seq d) (metric_points d))
  end.

(** [log_configs]; [now] is the clock reading taken before the
    transaction. *)
Definition log_configs (now : string) (data : list (string * (string * string)))
    : method () :=
  _transaction (λ self,
    (Ok (), set_file (log_configs_loop now data (file self)) self)).

Definition get_configs (self : LocalStorage)
    : res (gmap string (string * option string)) :=
  if conn self then Ok (fst <$> configs (file self))
  else Raise storage_closed.

Fixpoint log_points_loop (points : list (string * Z * pyfloat * Z)) : method () :=
  λ self,
  match points with
  | [] => (Ok (), self)
  | (path, step, y, ts) :: rest =>
      match _get_series_id path self with
      | (Raise e, self1) => (Raise e, self1)
      | (Ok series_id, self1) =>
          match insert_point series_id step y ts (file self1) with
          | Raise e => (Raise e, self1)
          | Ok d => log_points_loop rest (set_file d self1)
          end
      end
  end.

Definition log_metric_points (points : list (string * Z * pyfloat * Z))
    : method () :=
  _transaction (log_points_loop points).

(** A row of [SELECT s.path, p.step, p.y, p.ts]. *)
Record point_row : Type := Row {
  row_path : string;
  row_step : Z;
  row_y : pyfloat;
  row_ts : Z;
}.

(** [metric_points p JOIN metric_series s ON p.series_id = s.id] *)
Definition joined_rows (d : db) : list point_row :=
  s ← map_to_list (metric_series d);
  p ← map_to_list (metric_points d);
  if bool_decide (p.1.1 = s.2) then [Row s.1 p.1.2 p.2.1 p.2.2] else [].

Definition by_step (a b : point_row) : Prop := row_step a ≤ row_step b.

Definition by_path_step (a b : point_row) : Prop :=
  String.ltb (row_path a) (row_path b) = true
  ∨ (row_path a = row_path b ∧ row_step a ≤ row_step b).

Global Instance by_step_dec a b : Decision (by_step a b).
Proof. unfold by_step. apply _. Defined.

Global Instance by_path_step_dec a b : Decision (by_path_step a b).
Proof. unfold by_path_step. apply _. Defined.

(** [get_metric_points(path)]: [if path:] is false for [None] and for the
    empty text, and both take the unfiltered query. *)
Definition get_metric_points (path : option string) (self : LocalStorage)
    : res (list point_row) :=
  if conn self then
    match path with
    | Some p =>
        if bool_decide (p = "")
        then Ok (merge_sort by_path_step (joined_rows (file self)))
        else Ok (merge_sort by_step
                   (filter (λ r, row_path r = p) (joined_rows (file self))))
    | None => Ok (merge_sort by_path_step (joined_rows (file self)))
    end
  else Raise storage_closed.

Definition get_metric_paths (self : LocalStorage) : res (list string) :=
  if conn self then
    Ok (merge_sort String.le (remove_dups (row_path <$> joined_rows (file self))))
  else Raise storage_closed.

(** [checkpoint_wal]: the write-ahead log is not part of the model. *)
Definition checkpoint_wal (self : LocalStorage) : res () :=
  if conn self then Ok () else Raise storage_closed.

Definition close (self : LocalStorage) : LocalStorage :=
  if conn self then Storage (file self) false (series_cache self) else self.

(** What one call does to the object; [step_reopen] is a new
    [LocalStorage] on the same file. *)
Inductive store_step : LocalStorage → LocalStorage → Prop :=
  | step_set_meta key value self :
      store_step self (set_meta key value self).2
  | step_log_configs now data self :
      store_step self (log_configs now data self).2
  | step_log_metric_points points self :
      store_step self (log_metric_points points self).2
  | step_close self :
      store_step self (close self)
  | step_reopen self :
      store_step self (LocalStorage_init (file self)).

(** The states of a store that started on a new file. *)
Definition reachable (self : LocalStorage) : Prop :=
  rtc store_step (LocalStorage_init empty_db) self.

(** A cached series id is the id the table has for that path, when the
    table has the path. *)
Definition cache_agrees (self : LocalStorage) : Prop :=
  ∀ path i j,
    series_cache self !! path = Some i →
    metric_series (file self) !! path = Some j → i = j.

(** What a call leaves in place: the connection, the agreement of the
    cache with the table, and every row of the series table. *)
Definition extends (self self' : LocalStorage) : Prop :=
  conn self' = conn self
  ∧ (cache_agrees self → cache_agrees self')
  ∧ metric_series (file self) ⊆ metric_series (file self').

(** The (series, step) pair of a row. *)
Definition point_key (r : point_row) : string * Z := (row_path r, row_step r).

End storage.

(** ** storage.py: views of the tables *)

Section storage_views.
Context `{H : Host}.

(** The point the join has for a path and a step: the row of
    [metric_points] under the id that [metric_series] gives the path. *)
Definition point_at (d : db) (path : string) (step : Z) : option (pyfloat * Z) :=
  sid ← metric_series d !! path; metric_points d !! (sid, step).

(** What a batch makes of the point of [path] at [step]: the value and
    time of the last entry of the batch for them, else what was there. *)
Definition batch_point_at (points : list (string * Z * pyfloat * Z))
    (path : string) (step : Z) (before : option (pyfloat * Z))
    : option (pyfloat * Z) :=
  fold_left (λ acc point,
               if bool_decide (point.1.1.1 = path ∧ point.1.1.2 = step)
               then Some (point.1.2, point.2) else acc)
            points before.

(** The cache and the tables fit together: a cached id is the id of the
    table, no id is above the AUTOINCREMENT mark, no two series share an
    id, and every point belongs to a series. *)
Definition consistent (self : LocalStorage) : Prop :=
  let d := file self in
  series_cache self ⊆ metric_series d
  ∧ (∀ p i, metric_series d !! p = Some i → i ≤ series_seq d)
  ∧ (∀ p q i, metric_series d !! p = Some i → metric_series d !! q = Some i → p = q)
  ∧ (∀ sid step point, metric_points d !! (sid, step) = Some point →
                       ∃ p, metric_series d !! p = Some sid).

End storage_views.

(** ** The file system *)

Section files.
Context `{H : Host}.

(** What opening a file as a database and querying it gives: the tables of
    a run database, or the exception SQLite raises on it. *)
Inductive content : Type :=
  | RunDb (d : db)
  | Unreadable (e : exn).

Inductive fnode : Type :=
  | NDir
  | NFile (c : content).

(** Paths are texts whose components are joined by [/]; the file system
    maps the paths that exist to what is there. *)
Definition path_join (a b : string) : string := a +:+ "/" +:+ b.

Definition path_exists (fs : gmap string fnode) (p : string) : bool :=
  bool_decide (is_Some (fs !! p)).

Definition is_dir (fs : gmap string fnode) (p : string) : bool :=
  match fs !! p with Some NDir => true | _ => false end.

(** [if x:] on an optional text. *)
Definition truthy (x : option string) : option string :=
  match x with
  | Some s => if bool_decide (s = "") then None else Some s
  | None => None
  end.

(** ** config.py *)

Record environ : Type := Environ {
  env_home : option string;      (* os.environ.get("GOODSEED_HOME") *)
  env_project : option string;   (* os.environ.get("GOODSEED_PROJECT") *)
  default_home : string;         (* Path.home() / ".goodseed" *)
}.

Definition get_home (env : environ) (override : option string) : string :=
  match truthy override with
  | Some p => p
  | None =>
      match truthy (env_home env) with
      | Some home => home
      | None => default_home env
      end
  end.

Definition get_projects_dir (env : environ) (home_override : option string)
    : string :=
  path_join (get_home env home_override) "projects".

Definition get_default_project (env : environ) : string :=
  default "default" (env_project env).

Definition get_run_db_path (env : environ) (project run_name : string)
    (home_override : option string) : string :=
  path_join (path_join (path_join (get_projects_dir env home_override) project)
               "runs") (run_name +:+ ".sqlite").

(** ** run.py *)

(** The local function [_path_for] of [_resolve_db_path]. *)
Definition _path_for (env : environ) (project : string)
    (log_dir goodseed_home : option string) (name : string) : string :=
  match truthy log_dir with
  | Some dir => path_join dir (name +:+ ".sqlite")
  | None => get_run_db_path env project name goodseed_home
  end.

(** [f"{base}-{i}"] *)
Definition candidate_name (base : string) (i : Z) : string :=
  base +:+ "-" +:+ str_of_int i.

(** The loop [for i in range(2, 1000)] over the values of [i] still to
    try: the first candidate whose path is free. *)
Fixpoint first_free (fs : gmap string fnode) (path_for : string → string)
    (base : string) (candidates : list Z) : option (string * string) :=
  match candidates with
  | [] => None
  | i :: rest =>
      let candidate := candidate_name base i in
      let db_path := path_for candidate in
      if negb (path_exists fs db_path) then Some (candidate, db_path)
      else first_free fs path_for base rest
  end.

Definition already_exists (db_path : string) : exn :=
  RuntimeError ("Database already exists: " +:+ db_path +:+ "
Choose a different run_name or delete the file:
  rm " +:+ db_path).

Definition no_unique_name : exn :=
  RuntimeError "Could not find a unique run name after retries".

Definition _resolve_db_path (fs : gmap string fnode) (env : environ)
    (run_name project : string) (auto_name : bool)
    (log_dir goodseed_home : option string) : res (string * string) :=
  let path_for := _path_for env project log_dir goodseed_home in
  let db_path := path_for run_name in
  if negb (path_exists fs db_path) then Ok (run_name, db_path)
  else if negb auto_name then Raise (already_exists db_path)
  else
    match first_free fs path_for run_name (seqZ 2 998) with
    | Some found => Ok found
    | None => Raise no_unique_name
    end.

Record Run : Type := MkRun {
  project : string;
  experiment_name : option string;
  run_name : string;
  _closed : bool;
  _storage : LocalStorage;
  _db_path : string;
}.

(** The proper prefixes of a path that end before a [/]: the directories
    [mkdir(parents=True)] walks. *)
Fixpoint parents_from (prefix rest : string) : list string :=
  match rest with
  | EmptyString => []
  | String c r =>
      let tail := parents_from (prefix +:+ String c EmptyString) r in
      if (bool_decide (c = "/"%char) && negb (bool_decide (prefix = "")))%bool
      then prefix :: tail else tail
  end.

(** [ensure_dir(db_path.parent)]: [mkdir(parents=True, exist_ok=True)]. *)
Fixpoint mkdirs (dirs : list string) (fs : gmap string fnode)
    : res (gmap string fnode) :=
  match dirs with
  | [] => Ok fs
  | dir :: rest =>
      match fs !! dir with
      | None => mkdirs rest (<[dir := NDir]> fs)
      | Some NDir => mkdirs rest fs
      | Some (NFile _) => Raise (OSError ("File exists: " +:+ dir))
      end
  end.

Definition ensure_parents (fs : gmap string fnode) (db_path : string)
    : res (gmap string fnode) :=
  mkdirs (parents_from "" db_path) fs.

(** Running the methods of the store one after the other. *)
Definition and_then {A B} (m : method A) (k : A → method B) : method B :=
  λ self,
  match m self with
  | (Ok a, self') => k a self'
  | (Raise e, self') => (Raise e, self')
  end.

(** [Run.__init__]. [generated] is what [generate_run_name()] draws and
    [now] the clock reading; the result is the new object, or the
    exception, and the file system afterwards. *)
Definition Run_init (fs : gmap string fnode) (env : environ)
    (generated now : string)
    (experiment_name' project' run_name' goodseed_home log_dir : option string)
    : res Run * gmap string fnode :=
  let project := default (get_default_project env) (truthy project') in
  match _resolve_db_path fs env (default generated (truthy run_name')) project
          (bool_decide (run_name' = None)) log_dir goodseed_home with
  | Raise e => (Raise e, fs)
  | Ok (name, db_path) =>
      match ensure_parents fs db_path with
      | Raise e => (Raise e, fs)
      | Ok fs1 =>
          let writes :=
            and_then (set_meta "run_name" name) (λ _,
            and_then (set_meta "project" project) (λ _,
            and_then (set_meta "created_at" now) (λ _,
            and_then (set_meta "status" "running") (λ _,
              match truthy experiment_name' with
              | Some label => set_meta "experiment_name" label
              | None => λ self, (Ok (), self)
              end)))) in
          match writes (LocalStorage_init empty_db) with
          | (Raise e, storage) =>
              (Raise e, <[db_path := NFile (RunDb (file storage))]> fs1)
          | (Ok _, storage) =>
              (Ok (MkRun project experiment_name' name false storage db_path),
               <[db_path := NFile (RunDb (file storage))]> fs1)
          end
      end
  end.

Definition run_closed : exn := RuntimeError "Run is closed".

(** The loop of [Run.log_configs] that fills [serialized]. *)
Definition serialize_configs (data : list (string * pyval))
    : list (string * (string * string)) :=
  fold_left (λ serialized kv,
               dict_set (normalize_path kv.1) (serialize_value kv.2) serialized)
            data [].

(** [Run.log_configs(data, flatten)] *)
Definition Run_log_configs (now : string) (data : list (string * pyval))
    (flatten : bool) (self : Run) : res () * Run :=
  if _closed self then (Raise run_closed, self)
  else
    match (if flatten then flatten_dict data "" "/" false else Ok data) with
    | Raise e => (Raise e, self)
    | Ok data' =>
        let '(r, storage) :=
          log_configs now (serialize_configs data') (_storage self) in
        (r, MkRun (project self) (experiment_name self) (run_name self)
              (_closed self) storage (_db_path self))
    end.

End files.

(** ** run.py: logging metrics and closing *)

Section run_methods.
Context `{H : Host}.

Definition set_storage (storage : LocalStorage) (self : Run) : Run :=
  MkRun (project self) (experiment_name self) (run_name self) (_closed self)
    storage (_db_path self).

(** The loop of [Run.log_metrics] that fills [points]: [float(v)] is taken
    for each value in turn, and the first one that raises ends the loop. *)
Fixpoint metric_points_of (step ts : Z) (data : list (string * pyval))
    : res (list (string * Z * pyfloat * Z)) :=
  match data with
  | [] => Ok []
  | (k, v) :: rest =>
      y ← py_float v;
      others ← metric_points_of step ts rest;
      Ok ((normalize_path k, step, y, ts) :: others)
  end.

(** [Run.log_metrics(data, step)]; [ts] is the clock reading in whole
    seconds, taken after [int(step)]. *)
Definition Run_log_metrics (ts : Z) (data : list (string * pyval)) (step : pyval)
    (self : Run) : res () * Run :=
  if _closed self then (Raise run_closed, self)
  else
    match py_int step with
    | Raise e => (Raise e, self)
    | Ok step' =>
        match metric_points_of step' ts data with
        | Raise e => (Raise e, self)
        | Ok points =>
            let '(r, storage) := log_metric_points points (_storage self) in
            (r, set_storage storage self)
        end
    end.

(** [Run.close(status)]: [_closed] is set first, then the status and the
    closing time are written, the log is checkpointed and the store is
    closed; [now] is the clock reading for [closed_at]. *)
Definition Run_close (now status : string) (self : Run) : res () * Run :=
  if _closed self then (Ok (), self)
  else
    let '(r, storage) :=
      and_then (set_meta "status" status) (λ _,
      and_then (set_meta "closed_at" now) (λ _,
      and_then (λ storage, (checkpoint_wal storage, storage)) (λ _ storage,
        (Ok (), close storage)))) (_storage self) in
    (r, MkRun (project self) (experiment_name self) (run_name self) true
          storage (_db_path self)).

(** [Run._cleanup], registered with [atexit]. *)
Definition Run_cleanup (now : string) (self : Run) : res () * Run :=
  if negb (_closed self) then Run_close now "finished" self else (Ok (), self).

(** [Run.__exit__]: [exc_raised] tells whether the body of the [with]
    raised, that is whether [exc_type is not None]. *)
Definition Run_exit (now : string) (exc_raised : bool) (self : Run)
    : res () * Run :=
  Run_close now (if exc_raised then "failed" else "finished") self.

End run_methods.

(** ** utils.py: run names *)

Definition ADJECTIVES : list string :=
  ["agile"; "bold"; "calm"; "daring"; "eager"; "fierce"; "gentle"; "happy";
   "idle"; "jolly"; "keen"; "lively"; "merry"; "noble"; "proud"; "quick";
   "rapid"; "serene"; "swift"; "tame"; "unique"; "vivid"; "warm"; "zealous";
   "amber"; "azure"; "coral"; "dusty"; "ebony"; "frosty"; "golden"; "hazy";
   "ivory"; "jade"; "khaki"; "lunar"; "misty"; "navy"; "olive"; "pearl"].

Definition ANIMALS : list string :=
  ["albatross"; "badger"; "caracal"; "dolphin"; "eagle"; "falcon"; "gazelle";
   "heron"; "ibis"; "jaguar"; "koala"; "lemur"; "meerkat"; "narwhal"; "otter";
   "panther"; "quokka"; "raven"; "salmon"; "toucan"; "urchin"; "viper"; "walrus";
   "barracuda"; "cheetah"; "dragonfly"; "flamingo"; "giraffe"; "hedgehog";
   "iguana"; "jellyfish"; "kestrel"; "leopard"; "mantis"; "newt"; "octopus";
   "pelican"; "quail"; "rhino"; "starfish"; "turtle"; "vulture"; "wombat"].

(** [generate_run_name()]; [i] and [j] are the positions the two calls of
    [random.choice] draw, each below the length of its list. *)
Definition generate_run_name (i j : nat) : option string :=
  adj ← ADJECTIVES !! i;
  animal ← ANIMALS !! j;
  Some (adj +:+ "-" +:+ animal).

(** ** urllib.parse.urlparse on a request target *)

Definition is_alpha (c : ascii) : bool :=
  let n := nat_of_ascii c in
  ((Nat.leb 65 n && Nat.leb n 90) || (Nat.leb 97 n && Nat.leb n 122))%bool.

Definition is_scheme_char (c : ascii) : bool :=
  (is_alpha c || bool_decide (is_Some (digit_val c))
   || bool_decide (c = "+"%char) || bool_decide (c = "-"%char)
   || bool_decide (c = "."%char))%bool.

Definition uses_params : list string :=
  [""; "ftp"; "hdl"; "prospero"; "http"; "imap"; "https"; "shttp"; "rtsp";
   "rtspu"; "sip"; "sips"; "mms"; "sftp"; "tel"].

Record parse_result : Type := ParseResult {
  url_scheme : string;
  url_netloc : string;
  url_path : string;
  url_params : string;
  url_query : string;
  url_fragment : string;
}.

(** [_splitparams]: the parameters start at the first [;] of the last
    path segment. *)
Definition splitparams (url : string) : string * string :=
  let segments := str_split "/" url in
  let last_segment := List.last segments "" in
  match split_once ";" last_segment with
  | None => (url, "")
  | Some (a, b) =>
      (substring 0 (String.length url - String.length last_segment) url +:+ a, b)
  end.

(** [urlparse(url)] for text: leading control characters and blanks are
    dropped, tabs and line ends removed, then scheme, netloc, fragment,
    query and parameters are split off. A netloc with one square bracket
    and not the other raises [ValueError]. The validation of a host inside
    matching brackets, which only some releases do, is left out. *)
Definition urlparse (url0 : string) : res parse_result :=
  let url1 := lstrip_by (λ c, Nat.leb (nat_of_ascii c) 32) url0 in
  let url2 :=
    str_filter (λ c, negb (bool_decide (c = "009"%char)
                           || bool_decide (c = "010"%char)
                           || bool_decide (c = "013"%char))%bool) url1 in
  let '(scheme, url3) :=
    match split_once ":" url2 with
    | Some (String c0 pre, rest) =>
        if (is_alpha c0 && str_forall is_scheme_char (String c0 pre))%bool
        then (str_lower (String c0 pre), rest)
        else ("", url2)
    | _ => ("", url2)
    end in
  let is_delim := λ c : ascii,
    (bool_decide (c = "/"%char) || bool_decide (c = "?"%char)
     || bool_decide (c = "#"%char))%bool in
  split ←
    match url3 with
    | String "/" (String "/" after) =>
        let '(netloc, rest) := str_break is_delim after in
        if xorb (str_mem "[" netloc) (str_mem "]" netloc)
        then Raise (ValueError "Invalid IPv6 URL")
        else Ok (netloc, rest)
    | _ => Ok ("", url3)
    end;
  let '(netloc, url4) := split in
  let '(url5, fragment) :=
    match split_once "#" url4 with Some (a, b) => (a, b) | None => (url4, "") end in
  let '(url6, query) :=
    match split_once "?" url5 with Some (a, b) => (a, b) | None => (url5, "") end in
  let '(path, params) :=
    if (bool_decide (scheme ∈ uses_params) && str_mem ";" url6)%bool
    then splitparams url6 else (url6, "") in
  Ok (ParseResult scheme netloc path params query fragment).

(** ** urllib.parse.parse_qs and the clock text *)

Definition hex_val (c : ascii) : option nat :=
  let n := nat_of_ascii c in
  if (Nat.leb 48 n && Nat.leb n 57)%bool then Some (n - 48)%nat
  else if (Nat.leb 65 n && Nat.leb n 70)%bool then Some (n - 55)%nat
  else if (Nat.leb 97 n && Nat.leb n 102)%bool then Some (n - 87)%nat
  else None.

(** [unquote(s)]: every [%xx] with two hex digits becomes the byte [xx];
    text is read as its UTF-8 bytes. *)
Fixpoint unquote (s : string) : string :=
  match s with
  | EmptyString => EmptyString
  | String c r =>
      match r with
      | String a (String b r') =>
          match hex_val a, hex_val b with
          | Some x, Some y =>
              if bool_decide (c = "%"%char)
              then String (ascii_of_nat (16 * x + y)) (unquote r')
              else String c (unquote r)
          | _, _ => String c (unquote r)
          end
      | _ => String c (unquote r)
      end
  end.

Definition plus_to_space (s : string) : string :=
  (fix go (s : string) : string :=
     match s with
     | EmptyString => EmptyString
     | String c r => String (if bool_decide (c = "+"%char) then " "%char else c) (go r)
     end) s.

(** [parse_qsl(qs)]: the fields that have a [=] and a value that is not
    empty, names and values unquoted. *)
Definition parse_qsl (qs : string) : list (string * string) :=
  if bool_decide (qs = "") then []
  else
    omap (λ name_value,
            match split_once "=" name_value with
            | Some (name, value) =>
                if bool_decide (value = "") then None
                else Some (unquote (plus_to_space name),
                           unquote (plus_to_space value))
            | None => None
            end)
         (str_split "&" qs).

(** [parse_qs(qs).get(name, [None])[0]] *)
Definition query_first (qs name : string) : option string :=
  snd <$> head (filter (λ nv, nv.1 = name) (parse_qsl qs)).

(** [n] in decimal, padded with zeros to [width] digits. *)
Definition zero_pad (width : nat) (n : Z) : string :=
  let digits := str_of_int n in
  (fix zeros (k : nat) : string :=
     match k with O => EmptyString | S k' => String "0"%char (zeros k') end)
    (width - String.length digits)%nat +:+ digits.

(** [_ts_to_iso(ts)]: the UTC date and time of a Unix time stamp. Outside
    the years 1 to 9999 the conversion raises. *)
Definition _ts_to_iso (ts : Z) : res string :=
  let days := ts `div` 86400 in
  let secs := ts `mod` 86400 in
  let z := days + 719468 in
  let era := z `div` 146097 in
  let doe := z `mod` 146097 in
  let yoe := (doe - doe `div` 1460 + doe `div` 36524 - doe `div` 146096) `div` 365 in
  let doy := doe - (365 * yoe + yoe `div` 4 - yoe `div` 100) in
  let mp := (5 * doy + 2) `div` 153 in
  let d := doy - (153 * mp + 2) `div` 5 + 1 in
  let m := if mp <? 10 then mp + 3 else mp - 9 in
  let y := yoe + era * 400 + (if m <=? 2 then 1 else 0) in
  if ((1 <=? y) && (y <=? 9999))%bool then
    Ok (zero_pad 4 y +:+ "-" +:+ zero_pad 2 m +:+ "-" +:+ zero_pad 2 d +:+ "T"
        +:+ zero_pad 2 (secs `div` 3600) +:+ ":"
        +:+ zero_pad 2 ((secs `mod` 3600) `div` 60) +:+ ":"
        +:+ zero_pad 2 (secs `mod` 60) +:+ "+00:00")
  else Raise (ValueError ("year " +:+ str_of_int y +:+ " is out of range")).

(** ** server.py *)

Section server.
Context `{H : Host}.

(** [_open_readonly(db_path)] followed by a query: the tables, or the
    exception of the first statement that fails. *)
Definition open_readonly (fs : gmap string fnode) (db_path : string) : res db :=
  match fs !! db_path with
  | Some (NFile (RunDb d)) => Ok d
  | Some (NFile (Unreadable e)) => Raise e
  | Some NDir | None => Raise (DatabaseError "unable to open database file")
  end.

Definition _read_meta (fs : gmap string fnode) (db_path : string)
    : res (gmap string (option string)) :=
  run_meta <$> open_readonly fs db_path.

Record run_summary : Type := Summary {
  sum_project : string;
  sum_run_id : option string;
  sum_experiment_name : option string;
  sum_created_at : option string;
  sum_closed_at : option string;
  sum_status : option string;
}.

(** [meta.get(key)] and [meta.get(key, fallback)] on a table whose value
    column may hold NULL. *)
Definition meta_get (meta : gmap string (option string)) (key : string)
    : option string :=
  match meta !! key with Some value => value | None => None end.

Definition meta_get_or (meta : gmap string (option string)) (key fallback : string)
    : option string :=
  match meta !! key with Some value => value | None => Some fallback end.

Fixpoint strip_prefix (pre s : string) : option string :=
  match pre, s with
  | EmptyString, _ => Some s
  | String a pre', String b s' =>
      if bool_decide (a = b) then strip_prefix pre' s' else None
  | String _ _, EmptyString => None
  end.

(** The name of [key] as an entry of the directory [dir]. *)
Definition child_name (dir key : string) : option string :=
  match strip_prefix (dir +:+ "/") key with
  | Some name =>
      if (negb (bool_decide (name = "")) && negb (str_mem "/" name))%bool
      then Some name else None
  | None => None
  end.

(** [dir.iterdir()], as names. *)
Definition iterdir (fs : gmap string fnode) (dir : string) : list string :=
  omap (child_name dir) (map_to_list fs).*1.

(** [sorted(paths)] for entries of one directory. *)
Definition sorted_names (names : list string) : list string :=
  merge_sort String.le names.

Definition sqlite_suffix : string := ".sqlite".

(** Whether [name] matches [*.sqlite]. *)
Definition is_sqlite_name (name : string) : bool :=
  bool_decide
    (substring (String.length name - String.length sqlite_suffix)
       (String.length sqlite_suffix) name = sqlite_suffix
     ∧ (String.length sqlite_suffix ≤ String.length name)%nat).

(** [Path(name).stem] for a name that matches [*.sqlite]. *)
Definition stem (name : string) : string :=
  if bool_decide (name = sqlite_suffix) then name
  else substring 0 (String.length name - String.length sqlite_suffix) name.

(** The dict [_scan_runs] appends for a file whose metadata was read. *)
Definition summary_of (project_name name : string)
    (meta : gmap string (option string)) : run_summary :=
  Summary project_name
    (meta_get_or meta "run_name" (stem name))
    (meta_get meta "experiment_name")
    (meta_get meta "created_at")
    (meta_get meta "closed_at")
    (meta_get_or meta "status" "unknown").

(** The body of the inner loop of [_scan_runs] for one file: the summary
    it appends, or nothing when reading raised. *)
Definition scan_file (fs : gmap string fnode) (project_name runs_dir name : string)
    : list run_summary :=
  match _read_meta fs (path_join runs_dir name) with
  | Ok meta => [summary_of project_name name meta]
  | Raise _ => []
  end.

(** The body of the outer loop for one entry of the projects directory. *)
Definition scan_project (fs : gmap string fnode) (projects_dir name : string)
    : list run_summary :=
  let project_dir := path_join projects_dir name in
  if negb (is_dir fs project_dir) then []
  else
    let runs_dir := path_join project_dir "runs" in
    if negb (is_dir fs runs_dir) then []
    else
      sorted_names (filter (λ f, is_sqlite_name f = true) (iterdir fs runs_dir))
        ≫= scan_file fs name runs_dir.

(** The sort key [r.get("created_at") or ""]. *)
Definition created_key (r : run_summary) : string := default "" (sum_created_at r).

(** [runs.sort(key=..., reverse=True)]: a stable sort into descending
    order, written as insertion from the right. *)
Fixpoint insert_newest (r : run_summary) (sorted : list run_summary)
    : list run_summary :=
  match sorted with
  | [] => [r]
  | y :: rest =>
      if String.ltb (created_key r) (created_key y)
      then y :: insert_newest r rest
      else r :: sorted
  end.

Definition sort_newest_first (runs : list run_summary) : list run_summary :=
  foldr insert_newest [] runs.

(** [a] may stand before [b] in a list sorted by creation time, most
    recent first. *)
Definition not_older (a b : run_summary) : Prop :=
  String.le (created_key b) (created_key a).

(** A name of one directory entry: not empty and without [/]. *)
Definition entry_name (name : string) : Prop :=
  name ≠ "" ∧ str_mem "/" name = false.

Definition _scan_runs (fs : gmap string fnode) (projects_dir : string)
    : res (list run_summary) :=
  if negb (path_exists fs projects_dir) then Ok []
  else if negb (is_dir fs projects_dir)
  then Raise (OSError ("Not a directory: " +:+ projects_dir))
  else
    Ok (sort_newest_first
          (sorted_names (iterdir fs projects_dir)
             ≫= scan_project fs projects_dir)).

Definition raw_of (value : option string) : pyval :=
  match value with Some s => VStr s | None => VNone end.

(** The loop of [_get_configs] over the rows. *)
Fixpoint decode_rows (rows : list (string * (string * option string * string)))
    (configs : gmap string pyval) : res (gmap string pyval) :=
  match rows with
  | [] => Ok configs
  | (path, (type_tag, value, _)) :: rest =>
      v ← deserialize_value type_tag (raw_of value);
      decode_rows rest (<[path := v]> configs)
  end.

Definition _get_configs (fs : gmap string fnode) (db_path : string)
    : res (gmap string pyval) :=
  d ← open_readonly fs db_path;
  decode_rows (map_to_list (configs d)) ∅.

Record metric_json : Type := MetricJson {
  mj_path : string;
  mj_step : Z;
  mj_value : pyfloat;
  mj_is_preview : bool;
  mj_preview_completion : option pyfloat;
  mj_logged_at : string;
}.

Fixpoint metric_rows_json (rows : list point_row) : res (list metric_json) :=
  match rows with
  | [] => Ok []
  | row :: rest =>
      logged_at ← _ts_to_iso (row_ts row);
      others ← metric_rows_json rest;
      Ok (MetricJson (row_path row) (row_step row) (row_y row) false None
            logged_at :: others)
  end.

Definition _get_metrics (fs : gmap string fnode) (db_path : string)
    (metric_path : option string) : res (list metric_json) :=
  d ← open_readonly fs db_path;
  metric_rows_json
    match truthy metric_path with
    | Some p => merge_sort by_step (filter (λ r, row_path r = p) (joined_rows d))
    | None => merge_sort by_path_step (joined_rows d)
    end.

Definition _get_metric_paths (fs : gmap string fnode) (db_path : string)
    : res (list string) :=
  d ← open_readonly fs db_path;
  Ok (merge_sort String.le (remove_dups (row_path <$> joined_rows d))).

Definition _resolve_run_db (fs : gmap string fnode)
    (projects_dir project run_name : string) : option string :=
  let db_path :=
    path_join (path_join (path_join projects_dir project) "runs")
      (run_name +:+ ".sqlite") in
  if path_exists fs db_path then Some db_path else None.

(** A pattern [$] also matches before a line end that closes the text. *)
Definition drop_final_newline (s : string) : string :=
  match String.length s with
  | O => s
  | S n =>
      if bool_decide (substring n 1 s = String "010"%char EmptyString)
      then substring 0 n s else s
  end.

(** [_ROUTE_RUNS.match(path)] *)
Definition route_runs (path : string) : bool :=
  bool_decide (drop_final_newline path = "/api/runs").

(** The groups of [^/api/runs/([^/]+)/([^/]+)/<leaf>$] on [path]. *)
Definition route_run (leaf path : string) : option (string * string) :=
  match str_split "/" (drop_final_newline path) with
  | [""; "api"; "runs"; project; run_name; leaf'] =>
      if (bool_decide (leaf' = leaf) && negb (bool_decide (project = ""))
          && negb (bool_decide (run_name = "")))%bool
      then Some (project, run_name) else None
  | _ => None
  end.

Inductive json_body : Type :=
  | RunsJson (runs : list run_summary)
  | ConfigsJson (configs : gmap string pyval)
  | MetricsJson (metrics : list metric_json)
  | PathsJson (paths : list string)
  | ErrorJson (error : string).

Record response : Type := Response {
  status_code : Z;
  body : json_body;
}.

(** Whether [json.dumps] takes a decoded config value: a datetime is not
    JSON serializable. *)
Definition json_dumps_value (v : pyval) : res () :=
  match v with
  | VNone | VBool _ | VInt _ | VFloat _ | VStr _ => Ok ()
  | _ => Raise (TypeError
      ("Object of type " +:+ type_name v +:+ " is not JSON serializable"))
  end.

(** [_send_json(data)]: [json.dumps] comes first and may raise. *)
Fixpoint json_dumps_values (vs : list pyval) : res () :=
  match vs with
  | [] => Ok ()
  | v :: rest => _ ← json_dumps_value v; json_dumps_values rest
  end.

Definition _send_json (data : json_body) : res response :=
  match data with
  | ConfigsJson configs =>
      _ ← json_dumps_values (map_to_list configs).*2;
      Ok (Response 200 data)
  | _ => Ok (Response 200 data)
  end.

Definition _send_error (code : Z) (message : string) : response :=
  Response code (ErrorJson message).

Definition run_not_found (project run_name : string) : response :=
  _send_error 404 ("Run not found: " +:+ project +:+ "/" +:+ run_name).

(** The statements inside [try:] in [do_GET]. *)
Definition route (fs : gmap string fnode) (projects_dir path query : string)
    : res response :=
  if route_runs path then
    runs ← _scan_runs fs projects_dir;
    _send_json (RunsJson runs)
  else
    match route_run "configs" path with
    | Some (project, run_name) =>
        match _resolve_run_db fs projects_dir project run_name with
        | None => Ok (run_not_found project run_name)
        | Some db_path =>
            configs ← _get_configs fs db_path;
            _send_json (ConfigsJson configs)
        end
    | None =>
    match route_run "metrics" path with
    | Some (project, run_name) =>
        match _resolve_run_db fs projects_dir project run_name with
        | None => Ok (run_not_found project run_name)
        | Some db_path =>
            metrics ← _get_metrics fs db_path (query_first query "path");
            _send_json (MetricsJson metrics)
        end
    | None =>
    match route_run "metric-paths" path with
    | Some (project, run_name) =>
        match _resolve_run_db fs projects_dir project run_name with
        | None => Ok (run_not_found project run_name)
        | Some db_path =>
            paths ← _get_metric_paths fs db_path;
            _send_json (PathsJson paths)
        end
    | None => Ok (_send_error 404 "Not found")
    end end end.

(** [do_GET]: [self.path] is parsed before the [try:], so an exception of
    [urlparse] leaves the handler; an exception inside the [try:] becomes
    the 500 response. *)
Definition do_GET (fs : gmap string fnode) (projects_dir : string)
    (self_path : string) : res response :=
  parsed ← urlparse self_path;
  match route fs projects_dir (url_path parsed) (url_query parsed) with
  | Ok sent => Ok sent
  | Raise e => Ok (_send_error 500 (exn_str e))
  end.

End server.

(** ** A finite fragment of the interpreter

    Nine floats and two datetimes with the texts CPython gives them. A
    conversion whose result is not one of them raises [ValueError]; the
    fragment serves to run the definitions on concrete values. *)

Module Sample.

Inductive float : Type :=
  | F_nan | F_inf | F_neg_inf | F_zero | F_neg_zero
  | F_one | F_0_7 | F_0_9 | F_3_14.

Inductive datetime : Type :=
  | D_2025_01_15_12_30       (* datetime(2025, 1, 15, 12, 30) *)
  | D_epoch_utc.             (* datetime(1970, 1, 1, tzinfo=timezone.utc) *)

Global Instance float_eq_dec : EqDecision float.
Proof. solve_decision. Defined.

Definition eqb (a b : float) : bool :=
  match a, b with
  | F_nan, _ | _, F_nan => false
  | (F_zero | F_neg_zero), (F_zero | F_neg_zero) => true
  | _, _ => bool_decide (a = b)
  end.

Definition str (f : float) : string :=
  match f with
  | F_nan => "nan" | F_inf => "inf" | F_neg_inf => "-inf"
  | F_zero => "0.0" | F_neg_zero => "-0.0" | F_one => "1.0"
  | F_0_7 => "0.7" | F_0_9 => "0.9" | F_3_14 => "3.14"
  end.

Definition all_floats : list float :=
  [F_nan; F_inf; F_neg_inf; F_zero; F_neg_zero; F_one; F_0_7; F_0_9; F_3_14].

Definition of_str (s : string) : res float :=
  match List.find (λ f, String.eqb s (str f)) all_floats with
  | Some f => Ok f
  | None => Raise (ValueError ("could not convert string to float: " +:+ str_repr s))
  end.

Definition of_int (n : Z) : res float :=
  if n =? 0 then Ok F_zero
  else if n =? 1 then Ok F_one
  else Raise (ValueError "float outside the fragment").

Definition to_int (f : float) : res Z :=
  match f with
  | F_nan => Raise (ValueError "cannot convert float NaN to integer")
  | F_inf | F_neg_inf =>
      Raise (OverflowError "cannot convert float infinity to integer")
  | F_zero | F_neg_zero | F_0_7 | F_0_9 => Ok 0
  | F_one => Ok 1
  | F_3_14 => Ok 3
  end.

Definition truthy (f : float) : bool :=
  match f with F_zero | F_neg_zero => false | _ => true end.

Definition isoformat (d : datetime) : string :=
  match d with
  | D_2025_01_15_12_30 => "2025-01-15T12:30:00"
  | D_epoch_utc => "1970-01-01T00:00:00+00:00"
  end.

Definition fromisoformat (s : string) : res datetime :=
  if String.eqb s (isoformat D_2025_01_15_12_30) then Ok D_2025_01_15_12_30
  else if String.eqb s (isoformat D_epoch_utc) then Ok D_epoch_utc
  else Raise (ValueError ("Invalid isoformat string: " +:+ str_repr s)).

Definition dstr (d : datetime) : string :=
  match d with
  | D_2025_01_15_12_30 => "2025-01-15 12:30:00"
  | D_epoch_utc => "1970-01-01 00:00:00+00:00"
  end.

Definition drepr (d : datetime) : string :=
  match d with
  | D_2025_01_15_12_30 => "datetime.datetime(2025, 1, 15, 12, 30)"
  | D_epoch_utc =>
      "datetime.datetime(1970, 1, 1, 0, 0, tzinfo=datetime.timezone.utc)"
  end.

Definition host : Host := {|
  pyfloat := float;
  pydatetime := datetime;
  float_eqb := eqb;
  float_str := str;
  float_of_str := of_str;
  float_of_int := of_int;
  float_to_int := to_int;
  float_truthy := truthy;
  dt_isoformat := isoformat;
  dt_fromisoformat := fromisoformat;
  dt_str := dstr;
  dt_repr := drepr;
|}.

End Sample.

(** ** A sample projects directory *)

Definition sample_meta (created : option string) : gmap string (option string) :=
  match created with
  | Some t => {[ "created_at" := Some t; "status" := Some "finished" ]}
  | None => {[ "status" := Some "running" ]}
  end.

Definition sample_tree : gmap string fnode :=
  {[ "projects" := NDir;
     "projects/demo" := NDir;
     "projects/demo/runs" := NDir;
     "projects/demo/runs/old.sqlite" :=
       NFile (RunDb (Db (H := Sample.host)
                       (sample_meta (Some "2025-01-15T12:30:00+00:00")) ∅ ∅ 0 ∅));
     "projects/demo/runs/new.sqlite" :=
       NFile (RunDb (Db (H := Sample.host)
                       (sample_meta (Some "2025-02-01T08:00:00+00:00")) ∅ ∅ 0 ∅));
     "projects/demo/runs/fresh.sqlite" :=
       NFile (RunDb (Db (H := Sample.host) (sample_meta None) ∅ ∅ 0 ∅));
     "projects/demo/runs/broken.sqlite" :=
       NFile (Unreadable (DatabaseError "file is not a database")) ]}.

(** ** A sample store *)

Definition sample_points : list (string * Z * Sample.float * Z) :=
  [("loss", 2, Sample.F_0_7, 1735689602); ("loss", 1, Sample.F_0_9, 1735689601);
   ("acc", 1, Sample.F_one, 1735689601)].

Definition sample_store : LocalStorage (H := Sample.host) :=
  (log_metric_points (H := Sample.host) sample_points
     (LocalStorage_init empty_db)).2.

Definition sample_run : Run (H := Sample.host) :=
  MkRun "default" None "bold-falcon" false sample_store
    "home/projects/default/runs/bold-falcon.sqlite".

(** * Properties *)

Local Open Scope list_scope.
Set Warnings "-clear-no-such-hyp".

(** ** The decimal text of an int reads back *)

Lemma pretty_N_char_digit d :
  (d < 10)%N → digit_val (pretty_N_char d) = Some (Z.of_N d).
Proof.
  intros Hd.
  assert (d = 0 ∨ d = 1 ∨ d = 2 ∨ d = 3 ∨ d = 4 ∨ d = 5 ∨ d = 6 ∨ d = 7
          ∨ d = 8 ∨ d = 9)%N as Hcases by lia.
  repeat destruct Hcases as [-> | Hcases]; try subst d; reflexivity.
Qed.

Lemma digit_not_space c : is_digit c = true → is_space c = false.
Proof.
  destruct c as [[] [] [] [] [] [] [] []]; vm_compute; congruence.
Qed.

Lemma digit_not_sign c :
  is_digit c = true → c ≠ "-"%char ∧ c ≠ "+"%char.
Proof.
  destruct c as [[] [] [] [] [] [] [] []]; vm_compute; intros; split; congruence.
Qed.

Lemma pretty_N_go_digits x s :
  str_forall is_digit s = true → str_forall is_digit (pretty_N_go x s) = true.
Proof.
  revert s. induction (N.lt_wf_0 x) as [x _ IH]; intros s Hs.
  destruct (decide (x = 0)%N) as [-> | Hx]; [by rewrite pretty_N_go_0 |].
  rewrite pretty_N_go_step by lia.
  apply IH; [apply N.div_lt; lia |].
  simpl. rewrite Hs, andb_true_r.
  unfold is_digit. rewrite pretty_N_char_digit by (apply N.mod_lt; lia).
  apply bool_decide_eq_true. eauto.
Qed.

Lemma pretty_N_go_length x s :
  (String.length s ≤ String.length (pretty_N_go x s))%nat.
Proof.
  revert s. induction (N.lt_wf_0 x) as [x _ IH]; intros s.
  destruct (decide (x = 0)%N) as [-> | Hx]; [by rewrite pretty_N_go_0 |].
  rewrite pretty_N_go_step by lia.
  etrans; [| apply IH, N.div_lt; lia]. simpl. lia.
Qed.

Lemma read_digits_pretty_N_go x s :
  (0 < x)%N →
  read_digits (pretty_N_go x s) 0 false = read_digits s (Z.of_N x) true.
Proof.
  revert s. induction (N.lt_wf_0 x) as [x _ IH]; intros s Hx.
  rewrite pretty_N_go_step by done.
  assert (x `mod` 10 < 10)%N as Hmod by (apply N.mod_lt; lia).
  pose proof (N.div_mod x 10 ltac:(lia)) as Hdiv.
  destruct (decide (x `div` 10 = 0)%N) as [Hz | Hnz].
  - rewrite Hz, pretty_N_go_0. simpl.
    rewrite pretty_N_char_digit by done. f_equal. lia.
  - rewrite IH by (try apply N.div_lt; lia). simpl.
    rewrite pretty_N_char_digit by done. f_equal. lia.
Qed.

Lemma lstrip_head p c r : p c = false → lstrip_by p (String c r) = String c r.
Proof. intros Hc. simpl. by rewrite Hc. Qed.

Lemma rstrip_none p s :
  str_forall (λ c, negb (p c)) s = true → rstrip_by p s = s.
Proof.
  induction s as [| c r IH]; [done |]. simpl.
  intros [Hc Hr]%andb_true_iff. rewrite (IH Hr).
  destruct r; [| done]. by destruct (p c).
Qed.

Lemma str_forall_impl (p q : ascii → bool) s :
  (∀ c, p c = true → q c = true) →
  str_forall p s = true → str_forall q s = true.
Proof.
  intros Hpq. induction s as [| c r IH]; [done |]. simpl.
  intros [Hc Hr]%andb_true_iff. by rewrite (Hpq _ Hc), (IH Hr).
Qed.

Lemma strip_digits c r :
  str_forall is_digit (String c r) = true →
  strip_by is_space (String c r) = String c r.
Proof.
  intros Hall. unfold strip_by.
  pose proof Hall as [Hc _]%andb_true_iff.
  rewrite lstrip_head by by apply digit_not_space.
  apply rstrip_none. revert Hall. apply str_forall_impl.
  intros a Ha. by rewrite (digit_not_space a Ha).
Qed.

Lemma int_of_str_digits c r n :
  str_forall is_digit (String c r) = true →
  read_digits (String c r) 0 false = Some n →
  int_of_str (String c r) = Ok n.
Proof.
  intros Hall Hread. unfold int_of_str. rewrite strip_digits by done.
  pose proof Hall as [Hc _]%andb_true_iff.
  destruct (digit_not_sign c Hc) as [Hminus Hplus].
  rewrite !bool_decide_eq_false_2 by done. by rewrite Hread.
Qed.

Lemma pretty_positive_digits p :
  ∃ c r, pretty (Npos p) = String c r
         ∧ str_forall is_digit (String c r) = true
         ∧ read_digits (String c r) 0 false = Some (Zpos p).
Proof.
  unfold pretty, pretty_N. rewrite decide_False by done.
  pose proof (pretty_N_go_length (Npos p) "") as Hlen.
  pose proof (pretty_N_go_digits (Npos p) "" eq_refl) as Hdig.
  pose proof (read_digits_pretty_N_go (Npos p) "" ltac:(lia)) as Hread.
  rewrite (pretty_N_go_step (Npos p)) in Hlen by lia.
  assert (1 ≤ String.length (pretty_N_go (N.pos p) ""))%nat as Hpos.
  { rewrite pretty_N_go_step by lia.
    etrans; [| apply pretty_N_go_length]. simpl. lia. }
  destruct (pretty_N_go (N.pos p) "") as [| c r] eqn:Heq; [simpl in Hpos; lia |].
  exists c, r. by rewrite Hread.
Qed.

Lemma int_of_str_of_int n : int_of_str (str_of_int n) = Ok n.
Proof.
  unfold str_of_int. destruct n as [| p | p].
  - reflexivity.
  - change (pretty (Zpos p)) with (pretty (Npos p)).
    destruct (pretty_positive_digits p) as (c & r & -> & Hall & Hread).
    by apply int_of_str_digits.
  - change (pretty (Zneg p)) with ("-" +:+ pretty (Npos p)).
    destruct (pretty_positive_digits p) as (c & r & -> & Hall & Hread).
    unfold int_of_str.
    assert (strip_by is_space ("-" +:+ String c r) = String "-" (String c r)) as ->.
    { unfold strip_by.
      change ("-" +:+ String c r) with (String "-" (String c r)).
      rewrite lstrip_head by done.
      apply rstrip_none. simpl. revert Hall. simpl.
      intros [Hc Hr]%andb_true_iff.
      rewrite (digit_not_space c Hc). simpl.
      revert Hr. apply str_forall_impl.
      intros a Ha. by rewrite (digit_not_space a Ha). }
    rewrite bool_decide_eq_true_2 by done. by rewrite Hread.
Qed.

(** ** The fragment obeys the laws of the interpreter *)

Lemma sample_laws : HostLaws Sample.host.
Proof.
  split.
  - intros f Hf. by destruct f.
  - intros f Hf. destruct f; try discriminate Hf. by exists Sample.F_nan.
  - intros d. by destruct d.
Qed.

(** ** The value codec *)

Section codec.
Context `{H : Host}.

Lemma serialize_supported v :
  is_supported_type v = true →
  match v with
  | VNone => serialize_value v = ("null", "")
  | VBool b => serialize_value v = ("bool", if b then "true" else "false")
  | VInt n => serialize_value v = ("int", str_of_int n)
  | VFloat f => serialize_value v = ("float", float_str f)
  | VStr s => serialize_value v = ("str", s)
  | VDatetime d => serialize_value v = ("datetime", dt_isoformat d)
  | _ => False
  end.
Proof. by destruct v. Qed.

Lemma decode_none tag : deserialize_value tag VNone = Ok VNone.
Proof. unfold deserialize_value. by rewrite orb_true_r. Qed.

Lemma decode_unknown tag raw :
  tag ∉ known_tags → deserialize_value tag raw = Ok raw.
Proof.
  intros Htag. unfold deserialize_value, known_tags in *.
  rewrite !bool_decide_eq_false_2 by (intros ->; apply Htag; set_solver).
  by destruct raw.
Qed.

Lemma decode_bool_text s :
  deserialize_value "bool" (VStr s)
  = Ok (VBool (bool_decide (str_lower s = "true"))).
Proof. reflexivity. Qed.

(** C9: a [None] raw value decodes to [None] under every kind tag, with
    no exception, and a tag outside null, bool, int, float, str and
    datetime hands the raw value back unchanged. *)
Theorem C9_none_raw_and_unknown_tag (type_tag : string) (raw_value : pyval) :
  deserialize_value type_tag VNone = Ok VNone
  ∧ (type_tag ∉ known_tags → deserialize_value type_tag raw_value = Ok raw_value).
Proof. split; [apply decode_none | apply decode_unknown]. Qed.

(** C10: under the tag bool a text decodes to [True] exactly when its
    lower-cased form is "true"; every other text, such as "1", "yes" or
    " true ", decodes to [False] and nothing is raised. *)
Theorem C10_bool_text_decoding (s : string) :
  (∃ b, deserialize_value "bool" (VStr s) = Ok (VBool b)
        ∧ (b = true ↔ str_lower s = "true"))
  ∧ deserialize_value "bool" (VStr "1") = Ok (VBool false)
  ∧ deserialize_value "bool" (VStr "yes") = Ok (VBool false)
  ∧ deserialize_value "bool" (VStr " true ") = Ok (VBool false)
  ∧ deserialize_value "bool" (VStr "TRUE") = Ok (VBool true).
Proof.
  split; [| by repeat split].
  exists (bool_decide (str_lower s = "true")). split; [apply decode_bool_text |].
  apply bool_decide_eq_true.
Qed.

Lemma round_trip_exact `{!HostLaws H} v :
  is_supported_type v = true →
  (∀ f, v = VFloat f → float_is_nan f = false) →
  decode_encoded v = Ok v.
Proof.
  intros Hsup Hnan. unfold decode_encoded.
  destruct v; try discriminate Hsup; simpl.
  - reflexivity.
  - by destruct b.
  - unfold deserialize_value. simpl. by rewrite int_of_str_of_int.
  - unfold deserialize_value. simpl. by rewrite float_str_inv by by apply Hnan.
  - reflexivity.
  - unfold deserialize_value. simpl. by rewrite dt_isoformat_inv.
Qed.

Lemma round_trip_float `{!HostLaws H} f :
  ∃ g, decode_encoded (VFloat f) = Ok (VFloat g)
       ∧ float_is_nan g = float_is_nan f.
Proof.
  destruct (float_is_nan f) eqn:Hf.
  - destruct (float_str_nan f Hf) as (g & Hg & Hnan). exists g.
    unfold decode_encoded, deserialize_value. simpl. by rewrite Hg.
  - exists f. by rewrite round_trip_exact by (done || by intros ? [= <-]).
Qed.

Lemma same_value_refl v :
  (∀ f, v = VFloat f → float_is_nan f = false) → same_value v v.
Proof.
  intros Hnan. destruct v; simpl; try done.
  specialize (Hnan f eq_refl). unfold float_is_nan in Hnan.
  by apply negb_false_iff.
Qed.


End codec.

(** Witness of C9: the tag "unknown" with the raw text "data". *)
Lemma C9_witness :
  deserialize_value (H := Sample.host) "unknown" VNone = Ok VNone
  ∧ deserialize_value (H := Sample.host) "unknown" (VStr "data")
    = Ok (VStr "data").
Proof.
  destruct (C9_none_raw_and_unknown_tag (H := Sample.host) "unknown" (VStr "data"))
    as [Hnone Hraw].
  split; [exact Hnone |].
  apply Hraw. unfold known_tags. intros Hin.
  repeat (apply elem_of_cons in Hin as [Heq | Hin]; [discriminate Heq |]).
  by apply elem_of_nil in Hin.
Defined.



(** ** The run store after [close] *)

Section closed_store.
Context `{H : Host}.

Lemma conn_close self : conn (close self) = false.
Proof. unfold close. by destruct (conn self) eqn:Hc. Qed.

Lemma transaction_closed {A} (body : method A) self :
  conn self = false → _transaction body self = (Raise storage_closed, self).
Proof. intros Hc. unfold _transaction. by rewrite Hc. Qed.

(** C4: a second [close] changes nothing, and on a closed store each of
    set_meta, get_meta, log_configs, get_configs, log_metric_points,
    get_metric_points, get_metric_paths and checkpoint_wal raises the
    RuntimeError "Storage is closed" and leaves the object as it was. *)
Theorem C4_close_idempotent_and_closed_store_raises (self : LocalStorage) :
  close (close self) = close self
  ∧ (∀ key value,
       set_meta key value (close self) = (Raise storage_closed, close self))
  ∧ (∀ key, get_meta key (close self) = Raise storage_closed)
  ∧ (∀ now data,
       log_configs now data (close self) = (Raise storage_closed, close self))
  ∧ get_configs (close self) = Raise storage_closed
  ∧ (∀ points,
       log_metric_points points (close self)
       = (Raise storage_closed, close self))
  ∧ (∀ path, get_metric_points path (close self) = Raise storage_closed)
  ∧ get_metric_paths (close self) = Raise storage_closed
  ∧ checkpoint_wal (close self) = Raise storage_closed
  ∧ storage_closed = RuntimeError "Storage is closed".
Proof.
  pose proof (conn_close self) as Hc.
  repeat split.
  - unfold close at 1. by rewrite Hc.
  - intros. by apply transaction_closed.
  - intros. unfold get_meta. by rewrite Hc.
  - intros. by apply transaction_closed.
  - unfold get_configs. by rewrite Hc.
  - intros. by apply transaction_closed.
  - intros. unfold get_metric_points. by rewrite Hc.
  - unfold get_metric_paths. by rewrite Hc.
  - unfold checkpoint_wal. by rewrite Hc.
Qed.

End closed_store.

(** ** Flattening *)

Section flatten_facts.
Context `{H : Host}.

Lemma pyval_nested_ind (P : pyval → Prop) :
  P VNone → (∀ b, P (VBool b)) → (∀ n, P (VInt n)) → (∀ f, P (VFloat f)) →
  (∀ s, P (VStr s)) → (∀ d, P (VDatetime d)) →
  (∀ items, Forall (λ kv, P kv.2) items → P (VDict items)) →
  (∀ elems, Forall P elems → P (VList elems)) →
  (∀ elems, Forall P elems → P (VTuple elems)) →
  (∀ ty text, P (VOther ty text)) →
  ∀ v, P v.
Proof.
  intros Hnone Hbool Hint Hfloat Hstr Hdt Hdict Hlist Htuple Hother.
  fix IH 1. intros [| b | n | f | s | d | items | elems | elems | ty text].
  - apply Hnone.
  - apply Hbool.
  - apply Hint.
  - apply Hfloat.
  - apply Hstr.
  - apply Hdt.
  - apply Hdict. induction items as [| [k x] r IHr]; constructor; [apply IH | apply IHr].
  - apply Hlist. induction elems as [| x r IHr]; constructor; [apply IH | apply IHr].
  - apply Htuple. induction elems as [| x r IHr]; constructor; [apply IH | apply IHr].
  - apply Hother.
Qed.

Lemma flatten_elems_eq cast sep new_key elems i :
  (fix each (i : Z) (xs : list pyval) : res (list (string * pyval)) :=
     match xs with
     | [] => Ok []
     | item :: more =>
         one ←
           match item return res (list (string * pyval)) with
           | VDict _ => flatten_dict_value cast sep item (new_key +:+ "/" +:+ str_of_int i)
           | _ => flatten_leaf cast (new_key +:+ "/" +:+ str_of_int i) item
           end;
         others ← each (i + 1) more;
         Ok (one ++ others)%list
     end) i elems
  = flatten_elems cast sep new_key i elems.
Proof.
  revert i. induction elems as [| item more IH]; intros i; [done |].
  cbn [flatten_elems]. rewrite <- IH. by destruct item.
Qed.

Lemma flatten_dict_value_dict cast sep entries parent :
  flatten_dict_value cast sep (VDict entries) parent
  = items ← flatten_entries cast sep parent entries; Ok (dict_of_items items).
Proof.
  cbn [flatten_dict_value]. f_equal.
  induction entries as [| [k v] r IH]; [done |].
  cbn [flatten_entries]. rewrite <- IH.
  destruct v; try reflexivity;
    cbn [flatten_value]; by rewrite <- flatten_elems_eq.
Qed.

(** Dictionaries in insertion order. *)

Lemma dict_set_keys {V} k (v : V) d :
  (dict_set k v d).*1 = if bool_decide (k ∈ d.*1) then d.*1 else d.*1 ++ [k].
Proof.
  induction d as [| [k' v'] r IH]; [done |]. csimpl.
  destruct (decide (k' = k)) as [-> | Hne].
  - rewrite bool_decide_eq_true_2 by done. csimpl.
    by rewrite bool_decide_eq_true_2 by set_solver.
  - rewrite bool_decide_eq_false_2 by done. csimpl. rewrite IH.
    destruct (decide (k ∈ r.*1)).
    + by rewrite !bool_decide_eq_true_2 by set_solver.
    + by rewrite !bool_decide_eq_false_2 by set_solver.
Qed.

Lemma dict_set_overwrite {V} k (v v' : V) d :
  dict_set k v (dict_set k v' d) = dict_set k v d.
Proof.
  induction d as [| [k1 v1] r IH]; csimpl.
  - by rewrite bool_decide_eq_true_2.
  - destruct (decide (k1 = k)) as [-> | Hne].
    + rewrite !bool_decide_eq_true_2 by done. csimpl.
      by rewrite bool_decide_eq_true_2.
    + rewrite !bool_decide_eq_false_2 by done. csimpl.
      rewrite bool_decide_eq_false_2 by done. by rewrite IH.
Qed.

Lemma dict_set_comm {V} k k' (v v' : V) d :
  k ≠ k' → k ∈ d.*1 →
  dict_set k v (dict_set k' v' d) = dict_set k' v' (dict_set k v d).
Proof.
  intros Hne. induction d as [| [k1 v1] r IH]; csimpl.
  { by intros ?%elem_of_nil. }
  intros Hin. repeat case_bool_decide; simplify_eq; csimpl;
    repeat case_bool_decide; simplify_eq; try done.
  f_equal. apply IH. by apply elem_of_cons in Hin as [-> | Hin].
Qed.

Lemma fold_upd_keys_mono {V} (l d : list (string * V)) k :
  k ∈ d.*1 → k ∈ (fold_left upd l d).*1.
Proof.
  revert d. induction l as [| [k1 v1] r IH]; intros d Hin; [done |].
  csimpl. apply IH. unfold upd. csimpl. rewrite dict_set_keys.
  case_bool_decide; set_solver.
Qed.

Lemma dict_set_fold_comm {V} k (v : V) l d :
  k ∉ l.*1 → k ∈ d.*1 →
  dict_set k v (fold_left upd l d) = fold_left upd l (dict_set k v d).
Proof.
  revert d. induction l as [| [k1 v1] r IH]; intros d Hnot Hin; [done |].
  csimpl in *. rewrite IH.
  - f_equal. unfold upd. csimpl. apply dict_set_comm; set_solver.
  - set_solver.
  - unfold upd. csimpl. rewrite dict_set_keys. case_bool_decide; set_solver.
Qed.

Lemma fold_upd_dict_set {V} k (v : V) e d :
  NoDup e.*1 →
  fold_left upd (dict_set k v e) d = dict_set k v (fold_left upd e d).
Proof.
  revert d. induction e as [| [k1 v1] r IH]; intros d Hnd; [done |].
  csimpl in *. apply NoDup_cons in Hnd as [Hk1 Hnd].
  destruct (decide (k1 = k)) as [-> | Hne].
  - rewrite bool_decide_eq_true_2 by done. csimpl. unfold upd at 2 4. csimpl.
    rewrite dict_set_fold_comm.
    + by rewrite dict_set_overwrite.
    + done.
    + rewrite dict_set_keys. case_bool_decide; set_solver.
  - rewrite bool_decide_eq_false_2 by done. csimpl. by rewrite IH.
Qed.

Lemma dict_of_items_snoc {V} (l : list (string * V)) kv :
  dict_of_items (l ++ [kv]) = dict_set kv.1 kv.2 (dict_of_items l).
Proof. unfold dict_of_items. by rewrite fold_left_app. Qed.

Lemma dict_of_items_NoDup {V} (l : list (string * V)) : NoDup (dict_of_items l).*1.
Proof.
  induction l as [| kv l IH] using rev_ind; [constructor |].
  rewrite dict_of_items_snoc, dict_set_keys.
  case_bool_decide; [done |].
  apply NoDup_app. split; [done |]. split; [set_solver | apply NoDup_singleton].
Qed.

(** Inserting the items of [dict(l)] is inserting the items of [l]. *)
Lemma fold_upd_dict_of_items {V} (l d : list (string * V)) :
  fold_left upd (dict_of_items l) d = fold_left upd l d.
Proof.
  induction l as [| kv l IH] using rev_ind; [done |].
  rewrite dict_of_items_snoc, fold_upd_dict_set by apply dict_of_items_NoDup.
  by rewrite IH, fold_left_app.
Qed.


Lemma items_equiv_dict (l : list (string * pyval)) : items_equiv (dict_of_items l) l.
Proof. intros d. apply fold_upd_dict_of_items. Qed.

Lemma is_ok_bind {A B} (m : res A) (f : A → res B) :
  is_ok m = true → (∀ a, is_ok (f a) = true) → is_ok (m ≫= f) = true.
Proof. destruct m; [intros _ Hf; apply Hf | done]. Qed.

Lemma flatten_leaf_cast key v : is_ok (flatten_leaf true key v) = true.
Proof. unfold flatten_leaf. by destruct (is_supported_type v). Qed.

Lemma flatten_elems_total sep key elems i :
  Forall (λ x, ∀ k, is_ok (flatten_item true sep k x) = true) elems →
  is_ok (flatten_elems true sep key i elems) = true.
Proof.
  intros Hall. revert i. induction Hall as [| x r Hx _ IH]; intros i; [done |].
  cbn [flatten_elems]. apply is_ok_bind; [apply Hx |]. intros one.
  apply is_ok_bind; [apply IH | done].
Qed.

Lemma flatten_entries_total sep parent entries :
  Forall (λ kv, ∀ k, is_ok (flatten_value true sep k kv.2) = true) entries →
  is_ok (flatten_entries true sep parent entries) = true.
Proof.
  induction 1 as [| [k x] r Hx _ IH]; [done |].
  cbn [flatten_entries]. apply is_ok_bind; [apply Hx |]. intros here.
  apply is_ok_bind; [apply IH | done].
Qed.

Lemma flatten_total sep v :
  (∀ key, is_ok (flatten_value true sep key v) = true)
  ∧ (∀ key, is_ok (flatten_item true sep key v) = true).
Proof.
  induction v as [| | | | | | items IH | elems IH | elems IH |] using pyval_nested_ind;
    try (split; intros; apply flatten_leaf_cast).
  - assert (∀ key, is_ok (flatten_dict_value true sep (VDict items) key) = true) as Hd.
    { intros key. rewrite flatten_dict_value_dict.
      apply is_ok_bind; [| done]. apply flatten_entries_total.
      eapply Forall_impl; [exact IH |]. by intros kv [Hv _]. }
    by split.
  - split; intros key; [| apply flatten_leaf_cast].
    apply flatten_elems_total. eapply Forall_impl; [exact IH |]. by intros x [_ Hx].
  - split; intros key; [| apply flatten_leaf_cast].
    apply flatten_elems_total. eapply Forall_impl; [exact IH |]. by intros x [_ Hx].
Qed.

Lemma flatten_dict_total data parent sep :
  is_ok (flatten_dict data parent sep true) = true.
Proof. apply (flatten_total sep (VDict data)). Qed.


(** The code against the wording of the specification. *)

Lemma spec_elems_eq deep cast path elems i :
  (fix go (i : Z) (l : list pyval) : res (list (list string * pyval)) :=
     match l with
     | [] => Ok []
     | x :: r =>
         a ← spec_leaves deep cast (path ++ [str_of_int i]) true x;
         b ← go (i + 1) r;
         Ok (a ++ b)
     end) i elems
  = spec_elems deep cast path i elems.
Proof.
  revert i. induction elems as [| x r IH]; intros i; [done |].
  cbn [spec_elems]. by rewrite <- IH.
Qed.

Lemma spec_leaves_dict deep cast path in_seq entries :
  spec_leaves deep cast path in_seq (VDict entries)
  = spec_entries deep cast path entries.
Proof.
  cbn [spec_leaves].
  induction entries as [| [k x] r IH]; [done |].
  cbn [spec_entries]. by rewrite <- IH.
Qed.

Lemma spec_leaves_list deep cast path in_seq elems :
  spec_leaves deep cast path in_seq (VList elems)
  = if (in_seq && negb deep)%bool then spec_leaf cast path (VList elems)
    else spec_elems deep cast path 0 elems.
Proof. cbn [spec_leaves]. by rewrite spec_elems_eq. Qed.

Lemma spec_leaves_tuple deep cast path in_seq elems :
  spec_leaves deep cast path in_seq (VTuple elems)
  = if (in_seq && negb deep)%bool then spec_leaf cast path (VTuple elems)
    else spec_elems deep cast path 0 elems.
Proof. cbn [spec_leaves]. by rewrite spec_elems_eq. Qed.

Lemma str_app_assoc (a b c : string) : (a +:+ b) +:+ c = a +:+ (b +:+ c).
Proof.
  induction a as [| x a IH]; [reflexivity |].
  change (String x ((a +:+ b) +:+ c) = String x (a +:+ (b +:+ c))).
  by rewrite IH.
Qed.

Lemma str_join_snoc path k :
  path ≠ [] → str_join "/" (path ++ [k]) = str_join "/" path +:+ "/" +:+ k.
Proof.
  induction path as [| a [| b r] IH]; intros Hne; [done | done |].
  change (str_join "/" ((a :: b :: r) ++ [k]))
    with (a +:+ "/" +:+ str_join "/" ((b :: r) ++ [k])).
  rewrite IH by done.
  change (str_join "/" (a :: b :: r)) with (a +:+ "/" +:+ str_join "/" (b :: r)).
  by rewrite !str_app_assoc.
Qed.

Lemma str_app_slash_nonempty a k : a +:+ "/" +:+ k ≠ "".
Proof. by destruct a. Qed.

Lemma agree_app a a' b b' :
  agree a b → agree a' b' →
  agree (x ← a; y ← a'; Ok (x ++ y)) (x ← b; y ← b'; Ok (x ++ y)).
Proof.
  destruct a as [x | e], b as [l | e']; try done; simpl.
  destruct a' as [y | e], b' as [l' | e']; try done; simpl.
  intros Hx Hy d. rewrite fmap_app, !fold_left_app. by rewrite Hx, Hy.
Qed.

Lemma agree_leaf cast path v :
  agree (flatten_leaf cast (str_join "/" path) v) (spec_leaf cast path v).
Proof.
  unfold flatten_leaf, spec_leaf.
  destruct (is_supported_type v); [done |]. by destruct cast.
Qed.

Lemma agree_dict code spec :
  agree code spec → agree (items ← code; Ok (dict_of_items items)) spec.
Proof.
  destruct code as [items | e], spec as [leaves | e']; try done; simpl.
  intros Hi d. rewrite <- Hi. apply items_equiv_dict.
Qed.

Lemma flatten_refines_leaves cast v path :
  path ≠ [] → str_join "/" path ≠ "" →
  agree (flatten_value cast "/" (str_join "/" path) v)
        (spec_leaves false cast path false v)
  ∧ agree (flatten_item cast "/" (str_join "/" path) v)
          (spec_leaves false cast path true v).
Proof.
  revert path.
  induction v as [| | | | | | items IH | elems IH | elems IH |] using pyval_nested_ind;
    intros path Hne Hkey; try (split; apply agree_leaf).
  - assert (agree (flatten_dict_value cast "/" (VDict items) (str_join "/" path))
              (spec_entries false cast path items)) as Hd.
    { rewrite flatten_dict_value_dict. apply agree_dict.
      induction IH as [| [k x] r Hx _ IHr]; [done |].
      cbn [flatten_entries spec_entries]. apply agree_app; [| apply IHr].
      unfold child_key. rewrite bool_decide_eq_false_2 by done.
      rewrite <- str_join_snoc by done.
      apply Hx; [by destruct path | rewrite str_join_snoc by done].
      apply str_app_slash_nonempty. }
    rewrite !spec_leaves_dict. by split.
  - rewrite !spec_leaves_list. split; [| apply agree_leaf].
    cbn [flatten_value andb]. generalize 0.
    induction IH as [| x r Hx _ IHr]; intros i; [done |].
    cbn [flatten_elems spec_elems]. apply agree_app; [| apply IHr].
    rewrite <- str_join_snoc by done.
    apply Hx; [by destruct path | rewrite str_join_snoc by done].
    apply str_app_slash_nonempty.
  - rewrite !spec_leaves_tuple. split; [| apply agree_leaf].
    cbn [flatten_value andb]. generalize 0.
    induction IH as [| x r Hx _ IHr]; intros i; [done |].
    cbn [flatten_elems spec_elems]. apply agree_app; [| apply IHr].
    rewrite <- str_join_snoc by done.
    apply Hx; [by destruct path | rewrite str_join_snoc by done].
    apply str_app_slash_nonempty.
Qed.

Lemma flatten_dict_refines cast data :
  (∀ k v, (k, v) ∈ data → k ≠ "") →
  flatten_dict data "" "/" cast = spec_flatten false cast data.
Proof.
  intros Hkeys. unfold flatten_dict, spec_flatten.
  rewrite flatten_dict_value_dict, spec_leaves_dict.
  assert (agree (flatten_entries cast "/" "" data)
            (spec_entries false cast [] data)) as Hagree.
  { induction data as [| [k x] r IH]; [done |].
    cbn [flatten_entries spec_entries]. apply agree_app.
    - change (child_key "" "/" k) with (str_join "/" ([] ++ [k])).
      apply flatten_refines_leaves; [done |]. simpl. apply (Hkeys k x). set_solver.
    - apply IH. intros k' v' Hin. apply (Hkeys k' v'). set_solver. }
  destruct (flatten_entries cast "/" "" data) as [items | e],
    (spec_entries false cast [] data) as [leaves | e']; try done; simpl.
  - f_equal. apply Hagree.
  - by rewrite Hagree.
Qed.

Lemma bind_raise {A B} (m : res A) (f : A → res B) e :
  m ≫= f = Raise e → m = Raise e ∨ ∃ a, m = Ok a ∧ f a = Raise e.
Proof. destruct m as [a | e']; simpl; [eauto | intros [= ->]; eauto]. Qed.

Lemma flatten_leaf_raise key v e :
  flatten_leaf false key v = Raise e → unsupported e.
Proof.
  unfold flatten_leaf. destruct (is_supported_type v) eqn:Hs; [done |].
  intros [= <-]. by exists v, key.
Qed.

Lemma flatten_leaf_ok key v :
  is_ok (flatten_leaf false key v) = is_supported_type v.
Proof. unfold flatten_leaf. by destruct (is_supported_type v). Qed.

Lemma is_ok_app {A} (a a' : res (list A)) :
  is_ok (x ← a; y ← a'; Ok (x ++ y)) = (is_ok a && is_ok a')%bool.
Proof. destruct a; [| done]. by destruct a'. Qed.

(** By default the flattener raises exactly on the trees that hold a
    value it does not represent, and what it raises is the TypeError that
    names the value. *)
Lemma flatten_default sep v :
  (∀ key, is_ok (flatten_value false sep key v) = negb (rejects false v)
          ∧ ∀ e, flatten_value false sep key v = Raise e → unsupported e)
  ∧ (∀ key, is_ok (flatten_item false sep key v) = negb (rejects true v)
            ∧ ∀ e, flatten_item false sep key v = Raise e → unsupported e).
Proof.
  induction v as [| | | | | | items IH | elems IH | elems IH |] using pyval_nested_ind;
    try (split; intros key; (split; [apply flatten_leaf_ok | apply flatten_leaf_raise])).
  - assert (∀ key,
      is_ok (flatten_dict_value false sep (VDict items) key)
      = negb (rejects false (VDict items))
      ∧ ∀ e, flatten_dict_value false sep (VDict items) key = Raise e → unsupported e)
      as Hd.
    { intros key. rewrite flatten_dict_value_dict.
      assert (is_ok (flatten_entries false sep key items)
              = negb (rejects false (VDict items))
              ∧ ∀ e, flatten_entries false sep key items = Raise e → unsupported e)
        as [Hok Hraise].
      { cbn [rejects]. induction IH as [| [k x] r [Hx _] _ [IHok IHraise]]; [done |].
        cbn [flatten_entries]. split.
        - rewrite is_ok_app, (proj1 (Hx _)), IHok. by rewrite negb_orb.
        - intros e [Hhere | (here & _ & Hrest)]%bind_raise;
            [by eapply (proj2 (Hx _)) |].
          apply bind_raise in Hrest as [Hlater | (later & _ & [=])].
          by apply IHraise. }
      split.
      - rewrite <- Hok. by destruct (flatten_entries false sep key items).
      - intros e [Hr | (a & _ & [=])]%bind_raise. by apply Hraise. }
    split; intros key; apply Hd.
  - split; intros key; [| split; [done | apply flatten_leaf_raise]].
    cbn [flatten_value rejects]. generalize 0.
    induction IH as [| x r [_ Hx] _ IHr]; intros i; [done |].
    cbn [flatten_elems]. destruct (IHr (i + 1)) as [IHok IHraise]. split.
    + rewrite is_ok_app, (proj1 (Hx _)), IHok. by rewrite negb_orb.
    + intros e [Hone | (one & _ & Hrest)]%bind_raise;
        [by eapply (proj2 (Hx _)) |].
      apply bind_raise in Hrest as [Hothers | (others & _ & [=])].
      by apply IHraise.
  - split; intros key; [| split; [done | apply flatten_leaf_raise]].
    cbn [flatten_value rejects]. generalize 0.
    induction IH as [| x r [_ Hx] _ IHr]; intros i; [done |].
    cbn [flatten_elems]. destruct (IHr (i + 1)) as [IHok IHraise]. split.
    + rewrite is_ok_app, (proj1 (Hx _)), IHok. by rewrite negb_orb.
    + intros e [Hone | (one & _ & Hrest)]%bind_raise;
        [by eapply (proj2 (Hx _)) |].
      apply bind_raise in Hrest as [Hothers | (others & _ & [=])].
      by apply IHraise.
Qed.

Lemma flatten_dict_default data parent sep :
  is_ok (flatten_dict data parent sep false) = negb (rejects false (VDict data))
  ∧ ∀ e, flatten_dict data parent sep false = Raise e → unsupported e.
Proof. apply (flatten_default sep (VDict data)). Qed.

End flatten_facts.

Section flatten_claims.
Context `{H : Host}.


Lemma serialize_unsupported v :
  is_supported_type v = false → serialize_value v = ("str", py_str v).
Proof. by destruct v. Qed.


End flatten_claims.





(** ** Resolving the path of a run *)

Section resolve.
Context `{H : Host}.

Lemma first_free_seqZ fs path_for base (n : nat) (a : Z) :
  match first_free fs path_for base (seqZ a (Z.of_nat n)) with
  | Some found =>
      ∃ i, a ≤ i < a + Z.of_nat n
           ∧ found = (candidate_name base i, path_for (candidate_name base i))
           ∧ path_exists fs (path_for (candidate_name base i)) = false
           ∧ ∀ j, a ≤ j < i →
                  path_exists fs (path_for (candidate_name base j)) = true
  | None =>
      ∀ j, a ≤ j < a + Z.of_nat n →
           path_exists fs (path_for (candidate_name base j)) = true
  end.
Proof.
  revert a. induction n as [| n IH]; intros a.
  { simpl. intros j Hj. lia. }
  rewrite seqZ_cons by lia.
  replace (Z.pred (Z.of_nat (S n))) with (Z.of_nat n) by lia.
  cbn [first_free].
  destruct (path_exists fs (path_for (candidate_name base a))) eqn:Hhere; simpl.
  - specialize (IH (Z.succ a)).
    destruct (first_free fs path_for base (seqZ (Z.succ a) (Z.of_nat n)))
      as [found |].
    + destruct IH as (i & Hi & -> & Hfree & Hbefore).
      exists i. split; [lia |]. split; [done |]. split; [done |].
      intros j Hj. destruct (decide (j = a)) as [-> | Hne]; [done |].
      apply Hbefore. lia.
    + intros j Hj. destruct (decide (j = a)) as [-> | Hne]; [done |].
      apply IH. lia.
  - exists a. split; [lia |]. split; [done |]. split; [done |].
    intros j Hj. lia.
Qed.


End resolve.


(** The same input, evaluated: the first free candidate is "run-3". *)
Example resolve_db_path_example :
  _resolve_db_path (H := Sample.host)
    {[ "logs/run.sqlite" := NFile (RunDb empty_db);
       "logs/run-2.sqlite" := NFile (RunDb empty_db) ]}
    (Environ None None "/home/u/.goodseed") "run" "default" true
    (Some "logs") None
  = Ok ("run-3", "logs/run-3.sqlite").
Proof. vm_compute. reflexivity. Qed.

(** ** The catalog scan *)

Section scan_facts.
Context `{H : Host}.

Lemma ltb_false_le a b : String.ltb a b = false → String.le b a.
Proof.
  unfold String.ltb, String.le, String.leb. rewrite (String.compare_antisym a b).
  by destruct (String.compare b a).
Qed.

Lemma ltb_true_le a b : String.ltb a b = true → String.le a b.
Proof.
  unfold String.ltb, String.le, String.leb. by destruct (String.compare a b).
Qed.

Lemma insert_newest_perm r l : insert_newest r l ≡ₚ r :: l.
Proof.
  induction l as [| y rest IH]; [done |]. simpl.
  destruct (String.ltb (created_key r) (created_key y)); [| done].
  rewrite IH. apply Permutation_swap.
Qed.

Lemma sort_newest_first_perm runs : sort_newest_first runs ≡ₚ runs.
Proof.
  induction runs as [| r runs IH]; [done |]. simpl.
  by rewrite insert_newest_perm, IH.
Qed.

Global Instance not_older_trans : Transitive not_older.
Proof. intros a b c Hab Hbc. unfold not_older in *. by etrans. Qed.

Lemma insert_newest_sorted r l :
  StronglySorted not_older l → StronglySorted not_older (insert_newest r l).
Proof.
  induction 1 as [| y rest Hsorted IH Hall]; simpl.
  { repeat constructor. }
  destruct (String.ltb (created_key r) (created_key y)) eqn:Hlt.
  - constructor; [done |].
    rewrite insert_newest_perm. constructor; [| done].
    by apply ltb_true_le.
  - apply ltb_false_le in Hlt.
    constructor; [by constructor |].
    constructor; [done |].
    eapply Forall_impl; [exact Hall |]. intros z Hz. by etrans.
Qed.

Lemma sort_newest_first_sorted runs :
  StronglySorted not_older (sort_newest_first runs).
Proof.
  induction runs as [| r runs IH]; [constructor |].
  by apply insert_newest_sorted.
Qed.

Lemma strip_prefix_Some pre s r : strip_prefix pre s = Some r ↔ s = pre +:+ r.
Proof.
  revert s. induction pre as [| a pre IH]; intros s; simpl.
  { split; [by intros [= ->] | by intros ->]. }
  destruct s as [| b s]; [done |].
  case_bool_decide as Hab.
  - subst b. rewrite IH. split; [by intros -> | by intros [= ->]].
  - split; [done | by intros [= ? ?]].
Qed.

Lemma path_join_inj dir a b : path_join dir a = path_join dir b → a = b.
Proof.
  unfold path_join. intros Heq.
  apply (inj (String.app dir)) in Heq. by apply (inj (String.app "/")) in Heq.
Qed.

Lemma child_name_Some dir key name :
  child_name dir key = Some name ↔ key = path_join dir name ∧ entry_name name.
Proof.
  unfold child_name, entry_name.
  destruct (strip_prefix (dir +:+ "/") key) as [n |] eqn:Hstrip.
  - apply strip_prefix_Some in Hstrip. rewrite str_app_assoc in Hstrip.
    change (dir +:+ "/" +:+ n) with (path_join dir n) in Hstrip. subst key.
    destruct (decide (n = "")) as [-> | Hn].
    + rewrite bool_decide_eq_true_2 by done. simpl. split; [done |].
      intros [Heq%path_join_inj [Hne _]]. congruence.
    + rewrite (bool_decide_eq_false_2 (n = "")) by done. simpl.
      destruct (str_mem "/" n) eqn:Hslash; simpl.
      * split; [done |]. intros [Heq%path_join_inj [_ Hmem]]. congruence.
      * split; [by intros [= ->] |]. by intros [->%path_join_inj _].
  - split; [done |]. intros [-> _].
    assert (strip_prefix (dir +:+ "/") (path_join dir name) = Some name) as Heq
      by (apply strip_prefix_Some; unfold path_join; by rewrite str_app_assoc).
    congruence.
Qed.

Lemma elem_of_iterdir fs dir name :
  name ∈ iterdir fs dir ↔ entry_name name ∧ path_exists fs (path_join dir name) = true.
Proof.
  unfold iterdir, path_exists. rewrite list_elem_of_omap. split.
  - intros (key & Hkey & [-> Hname]%child_name_Some).
    split; [done |]. apply bool_decide_eq_true.
    apply list_elem_of_fmap in Hkey as ([k x] & -> & Hin).
    apply elem_of_map_to_list in Hin. by exists x.
  - intros [Hname [x Hx]%bool_decide_eq_true].
    exists (path_join dir name). split; [| by apply child_name_Some].
    apply list_elem_of_fmap. exists (path_join dir name, x).
    split; [done |]. by apply elem_of_map_to_list.
Qed.

Lemma elem_of_sorted_names name names : name ∈ sorted_names names ↔ name ∈ names.
Proof. unfold sorted_names. by rewrite merge_sort_Permutation. Qed.

Lemma elem_of_scan_file fs project runs_dir name r :
  r ∈ scan_file fs project runs_dir name
  ↔ ∃ meta, _read_meta fs (path_join runs_dir name) = Ok meta
            ∧ r = summary_of project name meta.
Proof.
  unfold scan_file. destruct (_read_meta fs (path_join runs_dir name)) as [meta | e].
  - rewrite list_elem_of_singleton. split; [by exists meta | by intros (? & [= <-] & ->)].
  - split; [by intros ?%elem_of_nil | by intros (? & [=] & _)].
Qed.

Lemma elem_of_scan_project fs projects_dir project r :
  r ∈ scan_project fs projects_dir project
  ↔ is_dir fs (path_join projects_dir project) = true
    ∧ is_dir fs (path_join (path_join projects_dir project) "runs") = true
    ∧ ∃ name meta,
        entry_name name ∧ is_sqlite_name name = true
        ∧ _read_meta fs (path_join (path_join (path_join projects_dir project)
                                      "runs") name) = Ok meta
        ∧ r = summary_of project name meta.
Proof.
  unfold scan_project.
  destruct (is_dir fs (path_join projects_dir project)); simpl;
    [| split; [by intros ?%elem_of_nil | by intros [? _]]].
  destruct (is_dir fs (path_join (path_join projects_dir project) "runs")); simpl;
    [| split; [by intros ?%elem_of_nil | by intros (_ & ? & _)]].
  rewrite list_elem_of_bind. split.
  - intros (name & (meta & Hread & ->)%elem_of_scan_file & Hname).
    apply elem_of_sorted_names, list_elem_of_filter in Hname as [Hsql Hname].
    apply elem_of_iterdir in Hname as [Hname _].
    split; [done |]. split; [done |]. by exists name, meta.
  - intros (_ & _ & name & meta & Hname & Hsql & Hread & ->).
    exists name. split; [apply elem_of_scan_file; by exists meta |].
    apply elem_of_sorted_names, list_elem_of_filter. split; [done |].
    apply elem_of_iterdir. split; [done |].
    unfold _read_meta, open_readonly, path_exists in *.
    apply bool_decide_eq_true.
    destruct (fs !! _) as [[| c] |]; [done | by eexists | done].
Qed.
Lemma le_empty s : String.le s "" → s = "".
Proof. by destruct s. Qed.

Lemma StronglySorted_lookup_lt {A} (R : relation A) l i j a b :
  StronglySorted R l → l !! i = Some a → l !! j = Some b → (i < j)%nat → R a b.
Proof.
  intros Hsorted. revert i j.
  induction Hsorted as [| x l _ IH Hall]; intros i j Hi Hj Hlt; [done |].
  destruct j as [| j]; [lia |]. destruct i as [| i]; simpl in *.
  - injection Hi as ->. rewrite Forall_forall in Hall.
    apply Hall. by eapply list_elem_of_lookup_2.
  - eapply IH; [done | done | lia].
Qed.


End scan_facts.


(** The same scan, evaluated: the corrupt file is left out, the newest
    run comes first and the run without a creation time last. *)
Example scan_runs_example :
  _scan_runs sample_tree "projects"
  = Ok [ Summary "demo" (Some "new") None (Some "2025-02-01T08:00:00+00:00")
           None (Some "finished");
         Summary "demo" (Some "old") None (Some "2025-01-15T12:30:00+00:00")
           None (Some "finished");
         Summary "demo" (Some "fresh") None None None (Some "running") ].
Proof. vm_compute. reflexivity. Qed.

(** ** The run store: one point for a series and a step *)

Section store_facts.
Context `{H : Host}.

(** Rows of the join. *)
Lemma elem_of_joined_rows d r :
  r ∈ joined_rows d
  ↔ ∃ sid, metric_series d !! row_path r = Some sid
           ∧ metric_points d !! (sid, row_step r) = Some (row_y r, row_ts r).
Proof.
  unfold joined_rows. rewrite list_elem_of_bind. split.
  - intros ([path sid] & Hr & Hs). apply elem_of_map_to_list in Hs.
    apply list_elem_of_bind in Hr as ([[sid' step] [y ts]] & Hr & Hp).
    apply elem_of_map_to_list in Hp. simpl in Hr.
    case_bool_decide as Hsid; [| by apply elem_of_nil in Hr].
    apply list_elem_of_singleton in Hr as ->. simpl in *. subst sid'. eauto.
  - intros (sid & Hs & Hp). exists (row_path r, sid).
    split; [| by apply elem_of_map_to_list].
    apply list_elem_of_bind. exists ((sid, row_step r), (row_y r, row_ts r)).
    split; [| by apply elem_of_map_to_list]. simpl.
    rewrite bool_decide_eq_true_2 by done. destruct r. apply list_elem_of_here.
Qed.

Lemma elem_of_join_cell (s : string * Z) (p : Z * Z * (pyfloat * Z)) r :
  r ∈ (if bool_decide (p.1.1 = s.2) then [Row s.1 p.1.2 p.2.1 p.2.2] else [])
  ↔ p.1.1 = s.2 ∧ r = Row s.1 p.1.2 p.2.1 p.2.2.
Proof.
  case_bool_decide.
  - rewrite list_elem_of_singleton. naive_solver.
  - split; [by intros ?%elem_of_nil | naive_solver].
Qed.

Lemma NoDup_joined_rows d : NoDup (joined_rows d).
Proof.
  unfold joined_rows.
  apply NoDup_bind; [| | apply NoDup_map_to_list].
  - intros [p1 s1] [p2 s2] r H1 H2 Hr1 Hr2.
    apply elem_of_map_to_list in H1, H2.
    apply list_elem_of_bind in Hr1 as (pt1 & [_ ->]%elem_of_join_cell & _).
    apply list_elem_of_bind in Hr2 as (pt2 & [_ Heq]%elem_of_join_cell & _).
    simpl in *. injection Heq as -> _ _ _. by simplify_eq.
  - intros s _.
    apply NoDup_bind; [| | apply NoDup_map_to_list].
    + intros [[a1 b1] [y1 t1]] [[a2 b2] [y2 t2]] r Hp1 Hp2
        [Ha1 ->]%elem_of_join_cell [Ha2 Heq]%elem_of_join_cell.
      simpl in *. injection Heq as -> -> ->. by subst.
    + intros x _. case_bool_decide; [apply NoDup_singleton | constructor].
Qed.

Lemma point_key_inj d r1 r2 :
  r1 ∈ joined_rows d → r2 ∈ joined_rows d → point_key r1 = point_key r2 → r1 = r2.
Proof.
  intros (s1 & Hs1 & Hp1)%elem_of_joined_rows (s2 & Hs2 & Hp2)%elem_of_joined_rows.
  destruct r1, r2. unfold point_key. simpl in *. intros [= -> ->].
  by simplify_eq.
Qed.

(** The table holds at most one point for a series and a step. *)
Lemma NoDup_point_keys d : NoDup (point_key <$> joined_rows d).
Proof.
  apply NoDup_fmap_2_strong; [| apply NoDup_joined_rows].
  intros r1 r2. apply point_key_inj.
Qed.

Lemma filter_key_none {A B} `{EqDecision B} (f : A → B) (l : list A) k :
  k ∉ f <$> l → filter (λ x, f x = k) l = [].
Proof.
  induction l as [| x l IH]; csimpl; [done |].
  intros [Hne Hk]%not_elem_of_cons.
  rewrite filter_cons_False by congruence. by apply IH.
Qed.

Lemma filter_key_singleton {A B} `{EqDecision B} (f : A → B) (l : list A) a :
  NoDup (f <$> l) → a ∈ l → filter (λ x, f x = f a) l = [a].
Proof.
  induction l as [| x l IH]; csimpl; [by intros _ ?%elem_of_nil |].
  intros [Hx Hnd]%NoDup_cons Hin.
  apply elem_of_cons in Hin as [-> | Hin].
  - rewrite filter_cons_True by done. by rewrite filter_key_none.
  - rewrite filter_cons_False; [by apply IH |].
    intros Heq. apply Hx. rewrite Heq. by apply list_elem_of_fmap_2.
Qed.

(** The series cache. *)

Lemma sqlite_int_ok n m : sqlite_int n = Ok m → m = n.
Proof. unfold sqlite_int. case_match; [by intros [= ->] | done]. Qed.

Lemma insert_point_ok sid step y ts d d' :
  insert_point sid step y ts d = Ok d' →
  float_is_nan y = false
  ∧ d' = Db (run_meta d) (configs d) (metric_series d) (series_seq d)
            (<[(sid, step) := (y, ts)]> (metric_points d)).
Proof.
  unfold insert_point.
  destruct (sqlite_int step) as [step' |] eqn:Hstep; [| done].
  destruct (sqlite_int ts) as [ts' |] eqn:Hts; [| done]. simpl.
  apply sqlite_int_ok in Hstep as ->, Hts as ->.
  destruct (float_is_nan y); [done |]. by intros [= <-].
Qed.

Lemma extends_refl self : extends self self.
Proof. by repeat split. Qed.

Lemma extends_trans a b c : extends a b → extends b c → extends a c.
Proof.
  intros (Hc1 & Ha1 & Hs1) (Hc2 & Ha2 & Hs2).
  split; [congruence |]. split; [auto | by etrans].
Qed.

Lemma get_series_id_spec path self r self' :
  _get_series_id path self = (r, self') →
  extends self self'
  ∧ metric_points (file self') = metric_points (file self)
  ∧ ∀ sid, r = Ok sid →
      (cache_agrees self →
       ∀ j, metric_series (file self) !! path = Some j → sid = j)
      ∧ (metric_series (file self') !! path = Some sid
         ∨ (series_cache self !! path = Some sid ∧ file self' = file self)).
Proof.
  unfold _get_series_id.
  destruct (series_cache self !! path) as [cached |] eqn:Hcache.
  { intros [= <- <-]. split; [apply extends_refl |]. split; [done |].
    intros sid [= <-]. split; [| by right]. intros Hag j Hj. by eapply Hag. }
  destruct (metric_series (file self) !! path) as [found |] eqn:Hfound.
  { intros [= <- <-]. simpl. split; [| split; [done |]].
    - split; [done |]. split; [| done].
      intros Hag p i j. simpl. destruct (decide (p = path)) as [-> | Hp].
      + rewrite lookup_insert_eq. intros [= <-]. congruence.
      + rewrite lookup_insert_ne by done. apply Hag.
    - intros sid [= <-]. split; [| by left]. by intros _ j [= <-]. }
  case_match eqn:Hfull.
  - intros [= <- <-]. simpl. split; [| split; [done |]].
    + split; [done |]. split.
      * intros Hag p i j. simpl. destruct (decide (p = path)) as [-> | Hp].
        -- rewrite !lookup_insert_eq. congruence.
        -- rewrite !lookup_insert_ne by done. apply Hag.
      * by apply insert_subseteq.
    + intros sid [= <-]. split; [done |]. left. apply lookup_insert_eq.
  - intros [= <- <-]. split; [apply extends_refl |]. split; [done |]. done.
Qed.

Lemma set_points_extends self d :
  metric_series d = metric_series (file self) → extends self (set_file d self).
Proof.
  intros Hd. split; [done |]. split; [| simpl; by rewrite Hd].
  intros Hag p i j. simpl. rewrite Hd. apply Hag.
Qed.

Lemma log_points_loop_extends points self r self' :
  log_points_loop points self = (r, self') → extends self self'.
Proof.
  revert self. induction points as [| [[[path step] y] ts] rest IH]; intros self.
  { intros [= <- <-]. apply extends_refl. }
  cbn [log_points_loop].
  destruct (_get_series_id path self) as [[sid | e] self1] eqn:Hid.
  - apply get_series_id_spec in Hid as [Hext _].
    destruct (insert_point sid step y ts (file self1)) as [d |] eqn:Hins.
    + intros Hrest%IH. apply insert_point_ok in Hins as [_ ->].
      eapply extends_trans; [exact Hext |].
      eapply extends_trans; [| exact Hrest]. by apply set_points_extends.
    + by intros [= <- <-].
  - intros [= <- <-]. by apply get_series_id_spec in Hid as [Hext _].
Qed.

Lemma log_points_loop_app a b self :
  log_points_loop (a ++ b) self
  = match log_points_loop a self with
    | (Ok _, self1) => log_points_loop b self1
    | (Raise e, self1) => (Raise e, self1)
    end.
Proof.
  revert self. induction a as [| [[[path step] y] ts] rest IH]; intros self; [done |].
  cbn [app log_points_loop].
  destruct (_get_series_id path self) as [[sid | e] self1]; [| done].
  destruct (insert_point sid step y ts (file self1)); [apply IH | done].
Qed.

Lemma store_step_cache_agrees self self' :
  store_step self self' → cache_agrees self → cache_agrees self'.
Proof.
  destruct 1 as [key value self | now data self | points self | self | self];
    intros Hag.
  - unfold set_meta, _transaction. by destruct (conn self).
  - unfold log_configs, _transaction. destruct (conn self); [| done].
    simpl. intros p i j. simpl.
    assert (∀ l d, metric_series (log_configs_loop now l d) = metric_series d) as ->.
    { induction l as [| [k [t v]] l IHl]; intros d; [done |]. simpl. by rewrite IHl. }
    apply Hag.
  - unfold log_metric_points, _transaction. destruct (conn self); [| done].
    destruct (log_points_loop points self) as [[u | e] self1] eqn:Hloop;
      apply log_points_loop_extends in Hloop as (_ & Hag1 & Hsub); simpl; [auto |].
    intros p i j Hi Hj. simpl in *.
    eapply (Hag1 Hag); [done |]. by eapply lookup_weaken.
  - unfold close. by destruct (conn self).
  - by intros p i j.
Qed.

Lemma reachable_cache_agrees self : reachable self → cache_agrees self.
Proof.
  unfold reachable. intros Hreach.
  eapply (rtc_ind_r cache_agrees); [| | exact Hreach].
  - by intros p i j.
  - intros a b _ Hstep IH. by eapply store_step_cache_agrees.
Qed.

Lemma get_metric_points_perm path self rows :
  get_metric_points path self = Ok rows →
  conn self = true
  ∧ ∃ l, rows ≡ₚ l ∧ l ⊆ joined_rows (file self) ∧ NoDup l
         ∧ ∀ r p, r ∈ joined_rows (file self) → path = Some p →
                  row_path r = p → r ∈ l.
Proof.
  unfold get_metric_points. destruct (conn self); [| done].
  intros Hrows. split; [done |].
  assert (∀ p : string,
            merge_sort by_step
              (filter (λ r, row_path r = p) (joined_rows (file self))) = rows →
            ∃ l, rows ≡ₚ l ∧ l ⊆ joined_rows (file self) ∧ NoDup l
                 ∧ ∀ r q, r ∈ joined_rows (file self) → Some p = Some q →
                          row_path r = q → r ∈ l) as Hfiltered.
  { intros p <-. eexists. split; [apply merge_sort_Permutation |].
    split; [by intros r [_ ?]%list_elem_of_filter |].
    split; [apply NoDup_filter, NoDup_joined_rows |].
    intros r q Hr [= <-] Hq. by apply list_elem_of_filter. }
  assert (merge_sort by_path_step (joined_rows (file self)) = rows →
          ∃ l, rows ≡ₚ l ∧ l ⊆ joined_rows (file self) ∧ NoDup l
               ∧ ∀ r q, r ∈ joined_rows (file self) → path = Some q →
                        row_path r = q → r ∈ l) as Hall.
  { intros <-. exists (joined_rows (file self)).
    split; [apply merge_sort_Permutation |]. split; [done |].
    split; [apply NoDup_joined_rows | done]. }
  destruct path as [p |]; [| injection Hrows as Hrows; by apply Hall].
  case_bool_decide; injection Hrows as Hrows; [by apply Hall | by apply Hfiltered].
Qed.

Lemma NoDup_point_keys_sub d l :
  l ⊆ joined_rows d → NoDup l → NoDup (point_key <$> l).
Proof.
  intros Hsub Hnd. apply NoDup_fmap_2_strong; [| done].
  intros r1 r2 H1 H2. apply (point_key_inj d); auto.
Qed.



End store_facts.



(** The series cache is not part of the transaction.  After the refused
    batch above the object still holds the id 1 for "a", while the file
    gives id 1 to the next series it creates, "c": a point then logged on
    "a" replaces the point of "c" at that step, and "a" has no points. *)
Example series_cache_outlives_rollback :
  let refused :=
    (log_metric_points (H := Sample.host)
       [("a", 1, Sample.F_one, 1735689600); ("b", 1, Sample.F_nan, 1735689600)]
       (LocalStorage_init empty_db)).2 in
  let with_c :=
    (log_metric_points (H := Sample.host)
       [("c", 1, Sample.F_0_9, 1735689601)] refused).2 in
  let with_a :=
    (log_metric_points (H := Sample.host)
       [("a", 1, Sample.F_0_7, 1735689602)] with_c).2 in
  series_cache refused !! "a" = Some 1
  ∧ get_metric_points (Some "c") with_c
    = Ok [Row (H := Sample.host) "c" 1 Sample.F_0_9 1735689601]
  ∧ get_metric_points (Some "c") with_a
    = Ok [Row (H := Sample.host) "c" 1 Sample.F_0_7 1735689602]
  ∧ get_metric_points (Some "a") with_a = Ok [].
Proof. repeat split; reflexivity. Qed.

(** ** The query server *)

Section server_facts.
Context `{H : Host}.

Lemma route_runs_true path :
  route_runs path = true → drop_final_newline path = "/api/runs".
Proof. unfold route_runs. by intros ?%bool_decide_eq_true. Qed.

(** The run list and the per-run routes exclude each other. *)
Lemma route_runs_not_run leaf path :
  route_runs path = true → route_run leaf path = None.
Proof. intros Hruns%route_runs_true. unfold route_run. by rewrite Hruns. Qed.

(** A path has one leaf. *)
Lemma route_run_leaf leaf path groups :
  route_run leaf path = Some groups →
  ∃ prefix, str_split "/" (drop_final_newline path) = prefix ++ [leaf].
Proof.
  unfold route_run. intros Hrun.
  destruct (str_split "/" (drop_final_newline path))
    as [| a [| b [| c [| project [| run_name [| leaf' [| ? ?]]]]]]];
    try discriminate; repeat case_match; try discriminate.
  match goal with
  | Hcond : (_ && _ && _)%bool = true |- _ =>
      apply andb_prop in Hcond as [[->%bool_decide_eq_true _]%andb_prop _]
  end.
  by eexists [_; _; _; _; _].
Qed.

Lemma route_run_other leaf leaf' path groups :
  route_run leaf path = Some groups → leaf' ≠ leaf → route_run leaf' path = None.
Proof.
  intros Hrun Hne.
  destruct (route_run leaf' path) as [groups' |] eqn:Hrun'; [| done].
  apply route_run_leaf in Hrun as [prefix Hsplit].
  apply route_run_leaf in Hrun' as [prefix' Hsplit'].
  rewrite Hsplit in Hsplit'. by apply app_inj_tail in Hsplit' as [_ ->].
Qed.

Lemma route_run_not_runs leaf path groups :
  route_run leaf path = Some groups → route_runs path = false.
Proof.
  intros Hrun. destruct (route_runs path) eqn:Hruns; [| done].
  by rewrite (route_runs_not_run leaf path Hruns) in Hrun.
Qed.

Lemma bind_ok {A B} (m : res A) (f : A → res B) b :
  m ≫= f = Ok b → ∃ a, m = Ok a ∧ f a = Ok b.
Proof. destruct m as [a | e]; simpl; [eauto | done]. Qed.

Lemma send_json_status data sent :
  _send_json data = Ok sent → status_code sent = 200.
Proof.
  unfold _send_json. destruct data; simpl;
    try (by intros [= <-]).
  destruct (json_dumps_values _); simpl; [by intros [= <-] | done].
Qed.

(** No pattern matches: the last statement of the [try:] answers. *)
Lemma route_unknown fs projects_dir path query :
  route_runs path = false →
  (∀ leaf, leaf ∈ ["configs"; "metrics"; "metric-paths"] →
           route_run leaf path = None) →
  route fs projects_dir path query = Ok (_send_error 404 "Not found").
Proof.
  intros Hruns Hrun. unfold route. rewrite Hruns.
  rewrite !Hrun; [done | | |]; rewrite !elem_of_cons; auto.
Qed.

(** A per-run pattern matches and the file is not there. *)
Lemma route_missing fs projects_dir path query leaf project run_name :
  leaf ∈ ["configs"; "metrics"; "metric-paths"] →
  route_run leaf path = Some (project, run_name) →
  _resolve_run_db fs projects_dir project run_name = None →
  route fs projects_dir path query = Ok (run_not_found project run_name).
Proof.
  intros Hleaf Hrun Hdb. unfold route.
  rewrite (route_run_not_runs _ _ _ Hrun).
  rewrite !elem_of_cons, elem_of_nil in Hleaf.
  destruct Hleaf as [-> | [-> | [-> | []]]].
  - by rewrite Hrun, Hdb.
  - rewrite (route_run_other _ "configs" _ _ Hrun) by done.
    by rewrite Hrun, Hdb.
  - rewrite (route_run_other _ "configs" _ _ Hrun) by done.
    rewrite (route_run_other _ "metrics" _ _ Hrun) by done.
    by rewrite Hrun, Hdb.
Qed.

(** What the [try:] sends when nothing is raised. *)
Lemma route_status fs projects_dir path query sent :
  route fs projects_dir path query = Ok sent →
  status_code sent = 200
  ∨ ∃ message, sent = _send_error 404 message.
Proof.
  unfold route, run_not_found. intros Hroute.
  repeat case_match; simplify_eq; eauto;
    match goal with
    | Hbind : (_ ≫= _) = Ok _ |- _ =>
        apply bind_ok in Hbind as (? & _ & Hsend);
        left; by eapply send_json_status
    end.
Qed.


End server_facts.


(** The other answers on the same directory: an unknown route, and a
    file that is not a database. *)
Example do_GET_unknown_route :
  do_GET sample_tree "projects" "/api/nothing"
  = Ok (Response (H := Sample.host) 404 (ErrorJson "Not found")).
Proof. reflexivity. Qed.

Example do_GET_unreadable_file :
  do_GET sample_tree "projects" "/api/runs/demo/broken/metric-paths"
  = Ok (Response (H := Sample.host) 500 (ErrorJson "file is not a database")).
Proof. reflexivity. Qed.

(** A request target that [urlparse] refuses: the exception is raised
    above the [try:], so it leaves [do_GET] and no response is sent,
    whatever the projects directory holds. *)
Lemma do_GET_unparsable_target `{H : Host} (fs : gmap string fnode)
    (projects_dir self_path : string) (e : exn) :
  urlparse self_path = Raise e → do_GET fs projects_dir self_path = Raise e.
Proof. intros Hparse. unfold do_GET. by rewrite Hparse. Qed.

